(** * The in-memory document store of [src/backend/database.py]

    A shallow embedding of [InMemoryCollection] and [init_database] together
    with the properties stated about them.

    Python values are represented by the type [value]; dictionaries are
    association lists in insertion order, strings are their UTF-8 bytes and
    are iterated one code point at a time.  Operations that can raise return
    an [outcome]; operations that mutate [self.data_store] take the store and
    return the new one.

    The collection is embedded twice.  In the first embedding records are
    held by value: it describes what a call returns and what the record it
    addresses holds afterwards, and it cannot tell one list held in two
    places from two equal lists.  The module [Ref] embeds [insert_one] and
    [update_one] once more over a heap of list and dictionary objects, as the
    code mutates them in place; what a call does to the rest of the store is
    stated there. *)

From Stdlib Require Import List String Ascii ZArith Bool Lia.
From Stdlib Require Import Sorting.Sorted Sorting.Permutation Structures.OrdersEx
  RelationClasses.
Import ListNotations.

Local Open Scope string_scope.
Local Open Scope list_scope.

(** ** Outcomes: a value or a raised exception *)

Inductive exn : Type :=
| TypeError
| AttributeError
| KeyError
| ValueError.

Inductive outcome (A : Type) : Type :=
| Ok (a : A)
| Raise (e : exn).

Arguments Ok {A} a.
Arguments Raise {A} e.

Definition bind {A B : Type} (m : outcome A) (k : A -> outcome B) : outcome B :=
  match m with
  | Ok a => k a
  | Raise e => Raise e
  end.

Notation "x <- m ;; k" := (bind m (fun x => k))
  (at level 61, m at next level, right associativity).

(** ** Python values *)

Module Py.

#[warnings="-register-all"] Inductive value : Type :=
| VNone
| VBool (b : bool)
| VInt (z : Z)
| VStr (s : string)
| VList (l : list value)
| VDict (d : list (string * value)).

(** A dictionary with string keys, in insertion order. *)
Definition dict : Type := list (string * value).

(** *** Association lists with Python's dictionary behaviour

    The functions take the test [p] that recognises the key, so that they
    serve both dictionaries keyed by strings and the store keyed by values. *)

Section Alist.
Context {K V : Type}.

(** [d[k]] and [k in d]: the first entry whose key passes [p]. *)
Fixpoint afind (p : K -> bool) (l : list (K * V)) : option V :=
  match l with
  | [] => None
  | (k, v) :: rest => if p k then Some v else afind p rest
  end.

Definition amem (p : K -> bool) (l : list (K * V)) : bool :=
  match afind p l with Some _ => true | None => false end.

(** [d[k] = v]: an existing key keeps its place, a new one goes last. *)
Fixpoint aset (p : K -> bool) (k : K) (v : V) (l : list (K * V)) : list (K * V) :=
  match l with
  | [] => [(k, v)]
  | (k', v') :: rest =>
      if p k' then (k', v) :: rest else (k', v') :: aset p k v rest
  end.

(** Replacement of the value held under an existing key. *)
Fixpoint aupdate (p : K -> bool) (f : V -> V) (l : list (K * V)) : list (K * V) :=
  match l with
  | [] => []
  | (k', v') :: rest =>
      if p k' then (k', f v') :: rest else (k', v') :: aupdate p f rest
  end.
End Alist.

Definition dict_get {V : Type} (k : string) (d : list (string * V)) : option V :=
  afind (String.eqb k) d.

Definition dict_mem {V : Type} (k : string) (d : list (string * V)) : bool :=
  amem (String.eqb k) d.

Definition dict_set {V : Type} (k : string) (v : V) (d : list (string * V))
  : list (string * V) :=
  aset (String.eqb k) k v d.

(** [{**base, **extra}] *)
Definition dict_merge {V : Type} (base extra : list (string * V)) : list (string * V) :=
  fold_left (fun acc kv => dict_set (fst kv) (snd kv) acc) extra base.

(** The keys of a well-formed dictionary are pairwise distinct. *)
Definition dict_wf {V : Type} (d : list (string * V)) : Prop :=
  NoDup (map fst d).

(** *** Equality, order, membership, iteration *)

(** [bool] is a subtype of [int]: [True == 1]. *)
Definition num_of (v : value) : option Z :=
  match v with
  | VBool b => Some (if b then 1 else 0)%Z
  | VInt z => Some z
  | _ => None
  end.

(** [x == y].  Lists are compared element by element; dictionaries have the
    same number of entries and every entry of the left one occurs in the
    right one, which on dictionaries with distinct keys is Python's
    order-insensitive comparison. *)
Fixpoint py_eqb (x y : value) : bool :=
  match x, y with
  | VNone, VNone => true
  | VBool a, VBool b => Bool.eqb a b
  | VBool a, VInt b => ((if a then 1 else 0) =? b)%Z
  | VInt a, VBool b => (a =? (if b then 1 else 0))%Z
  | VInt a, VInt b => (a =? b)%Z
  | VStr a, VStr b => String.eqb a b
  | VList a, VList b =>
      (fix go (a b : list value) : bool :=
         match a, b with
         | [], [] => true
         | x :: a', y :: b' => py_eqb x y && go a' b'
         | _, _ => false
         end) a b
  | VDict a, VDict b =>
      Nat.eqb (List.length a) (List.length b)
      && forallb (fun kv =>
                    existsb (fun kv' => String.eqb (fst kv) (fst kv')
                                        && py_eqb (snd kv) (snd kv')) b) a
  | _, _ => false
  end.

(** [hash(x)] succeeds: lists and dictionaries are unhashable. *)
Definition py_hashable (v : value) : bool :=
  match v with
  | VList _ | VDict _ => false
  | _ => true
  end.

(** [x < y]: numbers with numbers, strings with strings (byte by byte, which
    on UTF-8 text is the order of code points), lists lexicographically;
    anything else raises [TypeError]. *)
Fixpoint py_lt (x y : value) : outcome bool :=
  match x, y with
  | VStr a, VStr b => Ok (String.ltb a b)
  | VList a, VList b =>
      (fix go (a b : list value) : outcome bool :=
         match a, b with
         | [], [] => Ok false
         | [], _ :: _ => Ok true
         | _ :: _, [] => Ok false
         | x :: a', y :: b' => if py_eqb x y then go a' b' else py_lt x y
         end) a b
  | _, _ =>
      match num_of x, num_of y with
      | Some a, Some b => Ok (a <? b)%Z
      | _, _ => Raise TypeError
      end
  end.

(** [x > y] is the reflected [y < x] for these types. *)
Definition py_gt (x y : value) : outcome bool := py_lt y x.

(** [needle in hay] on strings. *)
Fixpoint substring_of (needle hay : string) : bool :=
  String.prefix needle hay
  || match hay with
     | EmptyString => false
     | String _ hay' => substring_of needle hay'
     end.

(** [item in container] *)
Definition py_contains (container item : value) : outcome bool :=
  match container with
  | VList l => Ok (existsb (fun e => py_eqb e item) l)
  | VStr s =>
      match item with
      | VStr t => Ok (substring_of t s)
      | _ => Raise TypeError
      end
  | VDict d =>
      match item with
      | VStr k => Ok (dict_mem k d)
      | VList _ | VDict _ => Raise TypeError
      | _ => Ok false
      end
  | _ => Raise TypeError
  end.

(** A continuation byte of UTF-8, [10xxxxxx]. *)
Definition is_continuation (c : ascii) : bool :=
  match c with
  | Ascii _ _ _ _ _ _ b6 b7 => b7 && negb b6
  end.

(** The characters of a string read from its end: the continuation bytes
    at the front that still wait for their first byte, and the characters
    after them. *)
Fixpoint split_chars (s : string) : string * list value :=
  match s with
  | EmptyString => (EmptyString, [])
  | String c s' =>
      let (pending, chars) := split_chars s' in
      if is_continuation c then (String c pending, chars)
      else (EmptyString, VStr (String c pending) :: chars)
  end.

(** Iterating a string gives its characters, one code point each: on the
    UTF-8 bytes, a first byte together with the continuation bytes after
    it. *)
Definition chars_of (s : string) : list value :=
  let (pending, chars) := split_chars s in
  match pending with
  | EmptyString => chars
  | _ => VStr pending :: chars
  end.

(** [iter(x)], run to the end. *)
Definition py_iter (x : value) : outcome (list value) :=
  match x with
  | VList l => Ok l
  | VStr s => Ok (chars_of s)
  | VDict d => Ok (map (fun kv => VStr (fst kv)) d)
  | _ => Raise TypeError
  end.

(** [x[k]] for a string [k]. *)
Definition py_getitem (x : value) (k : string) : outcome value :=
  match x with
  | VDict d =>
      match dict_get k d with
      | Some v => Ok v
      | None => Raise KeyError
      end
  | _ => Raise TypeError
  end.

(** [x.get(k, default)] *)
Definition py_get (x : value) (k : string) (default : value) : outcome value :=
  match x with
  | VDict d =>
      match dict_get k d with
      | Some v => Ok v
      | None => Ok default
      end
  | _ => Raise AttributeError
  end.

(** [x.items()] *)
Definition py_items (x : value) : outcome dict :=
  match x with
  | VDict d => Ok d
  | _ => Raise AttributeError
  end.

(** [l.remove(x)] on a list: the first element equal to [x] goes. *)
Fixpoint list_remove (x : value) (l : list value) : outcome (list value) :=
  match l with
  | [] => Raise ValueError
  | e :: rest =>
      if py_eqb e x then Ok rest
      else rest' <- list_remove x rest ;; Ok (e :: rest')
  end.

(** [any(item in container for item in items)], lazily. *)
Fixpoint py_any_in (items : list value) (container : value) : outcome bool :=
  match items with
  | [] => Ok false
  | item :: rest =>
      b <- py_contains container item ;;
      if b then Ok true else py_any_in rest container
  end.

(** [s.add(x)] on a set kept in insertion order. *)
Definition set_add (x : value) (s : list value) : outcome (list value) :=
  if py_hashable x then
    Ok (if existsb (fun e => py_eqb e x) s then s else s ++ [x])
  else Raise TypeError.

(** [s.update(xs)] *)
Fixpoint set_update (xs : list value) (s : list value) : outcome (list value) :=
  match xs with
  | [] => Ok s
  | x :: rest => s' <- set_add x s ;; set_update rest s'
  end.

(** [sorted(xs)]: a stable sort that compares with [<] only; a comparison
    that raises ends it. *)
Fixpoint sorted_insert (x : value) (l : list value) : outcome (list value) :=
  match l with
  | [] => Ok [x]
  | y :: rest =>
      b <- py_lt y x ;;
      if b then rest' <- sorted_insert x rest ;; Ok (y :: rest')
      else Ok (x :: y :: rest)
  end.

Fixpoint sorted (xs : list value) : outcome (list value) :=
  match xs with
  | [] => Ok []
  | x :: rest => rest' <- sorted rest ;; sorted_insert x rest'
  end.

End Py.

Import Py.

(** ** [InMemoryCollection] *)

(** [self.data_store]: identity key to record, in insertion order. *)
Definition store : Type := list (value * dict).

(** The test a dictionary lookup of [key] applies to a stored key. *)
Definition key_is (key : value) : value -> bool := fun k => py_eqb k key.

(** [self.data_store[key]] *)
Definition store_get (key : value) (data_store : store) : option dict :=
  afind (key_is key) data_store.

(** [key in self.data_store] *)
Definition store_contains (key : value) (data_store : store) : outcome bool :=
  if py_hashable key then Ok (amem (key_is key) data_store) else Raise TypeError.

(** [self.data_store[key] = record] *)
Definition store_set (key : value) (record : dict) (data_store : store) : store :=
  aset (key_is key) key record data_store.

(** The record object held under [key], after it was mutated to [record]. *)
Definition store_write (key : value) (record : dict) (data_store : store) : store :=
  aupdate (key_is key) (fun _ => record) data_store.

(** [{"_id": key, **value}] *)
Definition with_id (key : value) (fields : dict) : dict :=
  dict_merge [("_id", key)] fields.

(** [doc.get(k, default)] on a dictionary. *)
Definition dict_get_or (k : string) (d : dict) (default : value) : value :=
  match dict_get k d with
  | Some v => v
  | None => default
  end.

Fixpoint _matches_query (doc : dict) (query : dict) : outcome bool :=
  match query with
  | [] => Ok true
  | (key, condition) :: rest =>
      if String.eqb key "schedule_details.days" then
        has_in <- py_contains condition (VStr "$in") ;;
        if has_in then
          doc_days <- py_get (dict_get_or "schedule_details" doc (VDict [])) "days" (VList []) ;;
          wanted <- py_getitem condition "$in" ;;
          days <- py_iter wanted ;;
          hit <- py_any_in days doc_days ;;
          if negb hit then Ok false else _matches_query doc rest
        else _matches_query doc rest
      else if String.eqb key "schedule_details.start_time" then
        has_gte <- py_contains condition (VStr "$gte") ;;
        if has_gte then
          doc_time <- py_get (dict_get_or "schedule_details" doc (VDict [])) "start_time" (VStr "") ;;
          bound <- py_getitem condition "$gte" ;;
          early <- py_lt doc_time bound ;;
          if early then Ok false else _matches_query doc rest
        else _matches_query doc rest
      else if String.eqb key "schedule_details.end_time" then
        has_lte <- py_contains condition (VStr "$lte") ;;
        if has_lte then
          doc_time <- py_get (dict_get_or "schedule_details" doc (VDict [])) "end_time" (VStr "") ;;
          bound <- py_getitem condition "$lte" ;;
          late <- py_gt doc_time bound ;;
          if late then Ok false else _matches_query doc rest
        else _matches_query doc rest
      else if String.eqb key "difficulty_level" then
        match condition with
        | VDict c =>
            if dict_mem "$exists" c then
              let field_exists :=
                match dict_get key doc with
                | Some VNone | None => false
                | Some _ => true
                end in
              wanted <- py_getitem condition "$exists" ;;
              if negb (py_eqb wanted (VBool field_exists)) then Ok false
              else _matches_query doc rest
            else if negb (py_eqb (dict_get_or "difficulty_level" doc VNone) condition)
            then Ok false
            else _matches_query doc rest
        | _ =>
            if negb (py_eqb (dict_get_or "difficulty_level" doc VNone) condition)
            then Ok false
            else _matches_query doc rest
        end
      else _matches_query doc rest
  end.

(** The loop of [find], with [results] as built so far. *)
Fixpoint find_from (items : store) (query : dict) (results : list dict)
  : outcome (list dict) :=
  match items with
  | [] => Ok results
  | (key, value) :: rest =>
      keep <- _matches_query (with_id key value) query ;;
      find_from rest query
        (if keep then results ++ [with_id key value] else results)
  end.

Definition find (data_store : store) (query : option dict) : outcome (list dict) :=
  match query with
  | None => Ok (map (fun kv => with_id (fst kv) (snd kv)) data_store)
  | Some [] => Ok (map (fun kv => with_id (fst kv) (snd kv)) data_store)
  | Some q => find_from data_store q []
  end.

Definition find_one (data_store : store) (query : dict) : outcome (option dict) :=
  match dict_get "_id" query with
  | Some key =>
      present <- store_contains key data_store ;;
      if present then
        match store_get key data_store with
        | Some record => Ok (Some (with_id key record))
        | None => Raise KeyError
        end
      else Ok None
  | None => Ok None
  end.

Definition insert_one (data_store : store) (document : dict) : outcome (store * bool) :=
  doc_id <- py_getitem (VDict document) "_id" ;;
  let doc_data := filter (fun kv => negb (String.eqb (fst kv) "_id")) document in
  if py_hashable doc_id then Ok (store_set doc_id doc_data data_store, true)
  else Raise TypeError.

(** The object [update_one] returns. *)
Record update_result : Type := { modified_count : Z }.

(** The [$push] loop of [update_one] on the record [self.data_store[key]];
    the record is returned as it stands when the loop ends or raises.  The
    record is a value here, so the append shows under [field] of this record
    only; [Ref.push_fields] is the loop on the list object itself. *)
Fixpoint push_fields (items : dict) (record : dict) : dict * outcome unit :=
  match items with
  | [] => (record, Ok tt)
  | (field, value) :: rest =>
      let record1 :=
        if negb (dict_mem field record) then dict_set field (VList []) record
        else record in
      match dict_get field record1 with
      | Some (VList l) =>
          push_fields rest (dict_set field (VList (l ++ [value])) record1)
      | _ => (record1, Raise AttributeError)
      end
  end.

(** The [$pull] loop of [update_one], on the record as a value;
    [Ref.pull_fields] is the loop on the list object itself. *)
Fixpoint pull_fields (items : dict) (record : dict) : dict * outcome unit :=
  match items with
  | [] => (record, Ok tt)
  | (field, value) :: rest =>
      match dict_get field record with
      | None => pull_fields rest record
      | Some container =>
          match py_contains container value with
          | Raise e => (record, Raise e)
          | Ok false => pull_fields rest record
          | Ok true =>
              match container with
              | VList l =>
                  match list_remove value l with
                  | Ok l' => pull_fields rest (dict_set field (VList l') record)
                  | Raise e => (record, Raise e)
                  end
              | _ => (record, Raise AttributeError)
              end
          end
      end
  end.

(** [if op in update: for field, value in update[op].items(): ...] *)
Definition run_operator (op : string) (loop : dict -> dict -> dict * outcome unit)
    (update record : dict) : dict * outcome unit :=
  match dict_get op update with
  | None => (record, Ok tt)
  | Some arg =>
      match py_items arg with
      | Ok items => loop items record
      | Raise e => (record, Raise e)
      end
  end.

Definition update_one (data_store : store) (query update : dict)
  : store * outcome update_result :=
  match dict_get "_id" query with
  | None => (data_store, Ok {| modified_count := 0 |})
  | Some key =>
      if negb (py_hashable key) then (data_store, Raise TypeError)
      else
        match store_get key data_store with
        | None => (data_store, Ok {| modified_count := 0 |})
        | Some record =>
            let (record1, pushed) := run_operator "$push" push_fields update record in
            match pushed with
            | Raise e => (store_write key record1 data_store, Raise e)
            | Ok _ =>
                let (record2, pulled) :=
                  run_operator "$pull" pull_fields update record1 in
                (store_write key record2 data_store,
                 match pulled with
                 | Ok _ => Ok {| modified_count := 1 |}
                 | Raise e => Raise e
                 end)
            end
        end
  end.

Definition count_documents (data_store : store) (query : value) : nat :=
  List.length data_store.

(** The loop of [aggregate] that fills [all_days]. *)
Fixpoint collect_days (activities : list dict) (all_days : list value)
  : outcome (list value) :=
  match activities with
  | [] => Ok all_days
  | activity :: rest =>
      match dict_get "schedule_details" activity with
      | None => collect_days rest all_days
      | Some details =>
          has_days <- py_contains details (VStr "days") ;;
          if has_days then
            days <- py_getitem details "days" ;;
            items <- py_iter days ;;
            all_days' <- set_update items all_days ;;
            collect_days rest all_days'
          else collect_days rest all_days
      end
  end.

Definition aggregate (data_store : store) (pipeline : list value)
  : outcome (list dict) :=
  match pipeline with
  | [] => Ok []
  | stage :: _ =>
      unwind <- py_get stage "$unwind" VNone ;;
      if py_eqb unwind (VStr "$schedule_details.days") then
        all_days <- collect_days (map snd data_store) [] ;;
        days <- sorted all_days ;;
        Ok (map (fun day => [("_id", day)]) days)
      else Ok []
  end.

(** ** Seed data and [init_database] *)

(** The two module-level stores behind [activities_collection] and
    [teachers_collection]. *)
Record database : Type := {
  activities_db : store;
  teachers_db : store
}.

(** The table [initial_activities] as the module defines it.  The seeding
    loop hands its lists and dictionaries to [insert_one], which copies the
    outer dictionary only: the table is read here at the moment
    [init_database] runs on it. *)
Definition initial_activities : list (string * dict) :=
  [("Chess Club",
     [("description", VStr "Learn strategies and compete in chess tournaments");
      ("schedule", VStr "Mondays and Fridays, 3:15 PM - 4:45 PM");
      ("schedule_details", VDict
          [("days", VList [VStr "Monday"; VStr "Friday"]);
           ("start_time", VStr "15:15");
           ("end_time", VStr "16:45")]);
      ("max_participants", VInt 12);
      ("participants", VList [VStr "michael@mergington.edu"; VStr "daniel@mergington.edu"]);
      ("difficulty_level", VStr "Beginner")]);
  ("Programming Class",
     [("description", VStr "Learn programming fundamentals and build software projects");
      ("schedule", VStr "Tuesdays and Thursdays, 7:00 AM - 8:00 AM");
      ("schedule_details", VDict
          [("days", VList [VStr "Tuesday"; VStr "Thursday"]);
           ("start_time", VStr "07:00");
           ("end_time", VStr "08:00")]);
      ("max_participants", VInt 20);
      ("participants", VList [VStr "emma@mergington.edu"; VStr "sophia@mergington.edu"]);
      ("difficulty_level", VStr "Intermediate")]);
  ("Morning Fitness",
     [("description", VStr "Early morning physical training and exercises");
      ("schedule", VStr "Mondays, Wednesdays, Fridays, 6:30 AM - 7:45 AM");
      ("schedule_details", VDict
          [("days", VList [VStr "Monday"; VStr "Wednesday"; VStr "Friday"]);
           ("start_time", VStr "06:30");
           ("end_time", VStr "07:45")]);
      ("max_participants", VInt 30);
      ("participants", VList [VStr "john@mergington.edu"; VStr "olivia@mergington.edu"])]);
  ("Soccer Team",
     [("description", VStr "Join the school soccer team and compete in matches");
      ("schedule", VStr "Tuesdays and Thursdays, 3:30 PM - 5:30 PM");
      ("schedule_details", VDict
          [("days", VList [VStr "Tuesday"; VStr "Thursday"]);
           ("start_time", VStr "15:30");
           ("end_time", VStr "17:30")]);
      ("max_participants", VInt 22);
      ("participants", VList [VStr "liam@mergington.edu"; VStr "noah@mergington.edu"])]);
  ("Basketball Team",
     [("description", VStr "Practice and compete in basketball tournaments");
      ("schedule", VStr "Wednesdays and Fridays, 3:15 PM - 5:00 PM");
      ("schedule_details", VDict
          [("days", VList [VStr "Wednesday"; VStr "Friday"]);
           ("start_time", VStr "15:15");
           ("end_time", VStr "17:00")]);
      ("max_participants", VInt 15);
      ("participants", VList [VStr "ava@mergington.edu"; VStr "mia@mergington.edu"])]);
  ("Art Club",
     [("description", VStr "Explore various art techniques and create masterpieces");
      ("schedule", VStr "Thursdays, 3:15 PM - 5:00 PM");
      ("schedule_details", VDict
          [("days", VList [VStr "Thursday"]);
           ("start_time", VStr "15:15");
           ("end_time", VStr "17:00")]);
      ("max_participants", VInt 15);
      ("participants", VList [VStr "amelia@mergington.edu"; VStr "harper@mergington.edu"]);
      ("difficulty_level", VStr "Beginner")]);
  ("Drama Club",
     [("description", VStr "Act, direct, and produce plays and performances");
      ("schedule", VStr "Mondays and Wednesdays, 3:30 PM - 5:30 PM");
      ("schedule_details", VDict
          [("days", VList [VStr "Monday"; VStr "Wednesday"]);
           ("start_time", VStr "15:30");
           ("end_time", VStr "17:30")]);
      ("max_participants", VInt 20);
      ("participants", VList [VStr "ella@mergington.edu"; VStr "scarlett@mergington.edu"])]);
  ("Math Club",
     [("description", VStr "Solve challenging problems and prepare for math competitions");
      ("schedule", VStr "Tuesdays, 7:15 AM - 8:00 AM");
      ("schedule_details", VDict
          [("days", VList [VStr "Tuesday"]);
           ("start_time", VStr "07:15");
           ("end_time", VStr "08:00")]);
      ("max_participants", VInt 10);
      ("participants", VList [VStr "james@mergington.edu"; VStr "benjamin@mergington.edu"]);
      ("difficulty_level", VStr "Advanced")]);
  ("Debate Team",
     [("description", VStr "Develop public speaking and argumentation skills");
      ("schedule", VStr "Fridays, 3:30 PM - 5:30 PM");
      ("schedule_details", VDict
          [("days", VList [VStr "Friday"]);
           ("start_time", VStr "15:30");
           ("end_time", VStr "17:30")]);
      ("max_participants", VInt 12);
      ("participants", VList [VStr "charlotte@mergington.edu"; VStr "amelia@mergington.edu"]);
      ("difficulty_level", VStr "Intermediate")]);
  ("Weekend Robotics Workshop",
     [("description", VStr "Build and program robots in our state-of-the-art workshop");
      ("schedule", VStr "Saturdays, 10:00 AM - 2:00 PM");
      ("schedule_details", VDict
          [("days", VList [VStr "Saturday"]);
           ("start_time", VStr "10:00");
           ("end_time", VStr "14:00")]);
      ("max_participants", VInt 15);
      ("participants", VList [VStr "ethan@mergington.edu"; VStr "oliver@mergington.edu"]);
      ("difficulty_level", VStr "Advanced")]);
  ("Science Olympiad",
     [("description", VStr "Weekend science competition preparation for regional and state events");
      ("schedule", VStr "Saturdays, 1:00 PM - 4:00 PM");
      ("schedule_details", VDict
          [("days", VList [VStr "Saturday"]);
           ("start_time", VStr "13:00");
           ("end_time", VStr "16:00")]);
      ("max_participants", VInt 18);
      ("participants", VList [VStr "isabella@mergington.edu"; VStr "lucas@mergington.edu"])]);
  ("Sunday Chess Tournament",
     [("description", VStr "Weekly tournament for serious chess players with rankings");
      ("schedule", VStr "Sundays, 2:00 PM - 5:00 PM");
      ("schedule_details", VDict
          [("days", VList [VStr "Sunday"]);
           ("start_time", VStr "14:00");
           ("end_time", VStr "17:00")]);
      ("max_participants", VInt 16);
      ("participants", VList [VStr "william@mergington.edu"; VStr "jacob@mergington.edu"]);
      ("difficulty_level", VStr "Advanced")]);
  ("Manga Maniacs",
     [("description", VStr "Dive into epic adventures, discover incredible powers, and connect with unforgettable heroes! Join fellow manga enthusiasts as we explore everything from shonen battles to slice-of-life stories. Whether you're rooting for Naruto, One Piece, or love discovering hidden gems, this is your otaku home base!");
      ("schedule", VStr "Tuesdays, 7:00 PM - 8:00 PM");
      ("schedule_details", VDict
          [("days", VList [VStr "Tuesday"]);
           ("start_time", VStr "19:00");
           ("end_time", VStr "20:00")]);
      ("max_participants", VInt 15);
      ("participants", VList [])])].

Section Seeding.

(** [hash_password] calls Argon2's [PasswordHasher().hash], a collaborator
    outside the repository; its result is stored as an opaque string. *)
Variable hash_password : string -> string.

Definition initial_teachers : list dict :=
  [[("username", VStr "mrodriguez");
    ("display_name", VStr "Ms. Rodriguez");
    ("password", VStr (hash_password "art123"));
    ("role", VStr "teacher")];
   [("username", VStr "mchen");
    ("display_name", VStr "Mr. Chen");
    ("password", VStr (hash_password "chess456"));
    ("role", VStr "teacher")];
   [("username", VStr "principal");
    ("display_name", VStr "Principal Martinez");
    ("password", VStr (hash_password "admin789"));
    ("role", VStr "admin")]].

(** [for name, details in initial_activities.items(): insert_one(...)] *)
Fixpoint seed_activities (items : list (string * dict)) (data_store : store)
  : outcome store :=
  match items with
  | [] => Ok data_store
  | (name, details) :: rest =>
      r <- insert_one data_store (dict_merge [("_id", VStr name)] details) ;;
      seed_activities rest (fst r)
  end.

(** [for teacher in initial_teachers: insert_one(...)] *)
Fixpoint seed_teachers (teachers : list dict) (data_store : store) : outcome store :=
  match teachers with
  | [] => Ok data_store
  | teacher :: rest =>
      username <- py_getitem (VDict teacher) "username" ;;
      r <- insert_one data_store (dict_merge [("_id", username)] teacher) ;;
      seed_teachers rest (fst r)
  end.

Definition init_database (db : database) : outcome database :=
  activities <-
    (if Nat.eqb (count_documents (activities_db db) (VDict [])) 0
     then seed_activities initial_activities (activities_db db)
     else Ok (activities_db db)) ;;
  teachers <-
    (if Nat.eqb (count_documents (teachers_db db) (VDict [])) 0
     then seed_teachers initial_teachers (teachers_db db)
     else Ok (teachers_db db)) ;;
  Ok {| activities_db := activities; teachers_db := teachers |}.

End Seeding.

(** ** Lists and dictionaries as objects

    [insert_one] copies the outer dictionary of a document only, and
    [update_one] appends to and removes from a list in place.  The module
    [Ref] embeds the two with lists and dictionaries as objects of a heap,
    so that one list can stand under two fields or two keys.  The store maps
    an identity key to the address of the record's dictionary.  Arguments
    ([query], [update], [document]) are the caller's own mappings; what they
    hold is a value of the heap. *)

Module Ref.

Definition addr : Type := nat.

(** What a variable, a list slot or a dictionary slot holds: an immutable
    value, or a reference to a list or dictionary object. *)
Inductive rvalue : Type :=
| RNone
| RBool (b : bool)
| RInt (z : Z)
| RStr (s : string)
| RRef (a : addr).

Inductive object : Type :=
| OList (items : list rvalue)
| ODict (entries : list (string * rvalue)).

(** The object at address [a] is the [a]-th of the heap; a new object goes
    to the end. *)
Definition heap : Type := list object.

Definition deref (h : heap) (a : addr) : option object := nth_error h a.

(** The object at [a] mutated to [o]. *)
Fixpoint put (h : heap) (a : addr) (o : object) : heap :=
  match h, a with
  | [], _ => []
  | _ :: rest, O => o :: rest
  | x :: rest, S a' => x :: put rest a' o
  end.

Definition alloc (h : heap) (o : object) : heap * addr :=
  (h ++ [o], List.length h).

(** A value, a raised exception, or [RecursionError] from a comparison
    nested deeper than the interpreter allows. *)
Inductive result (A : Type) : Type :=
| Done (a : A)
| Fail (e : exn)
| TooDeep.

Arguments Done {A} a.
Arguments Fail {A} e.
Arguments TooDeep {A}.

Definition rbind {A B : Type} (m : result A) (k : A -> result B) : result B :=
  match m with
  | Done a => k a
  | Fail e => Fail e
  | TooDeep => TooDeep
  end.

Notation "x <~ m ;; k" := (rbind m (fun x => k))
  (at level 61, m at next level, right associativity).

(** [self.data_store] and the objects it reaches. *)
Record state : Type := {
  data_store : list (rvalue * addr);
  objects : heap
}.

(** [x == y] on immutable values. *)
Definition atom_eqb (x y : rvalue) : bool :=
  match x, y with
  | RNone, RNone => true
  | RBool a, RBool b => Bool.eqb a b
  | RBool a, RInt b => ((if a then 1 else 0) =? b)%Z
  | RInt a, RBool b => (a =? (if b then 1 else 0))%Z
  | RInt a, RInt b => (a =? b)%Z
  | RStr a, RStr b => String.eqb a b
  | _, _ => false
  end.

Definition hashable (v : rvalue) : bool :=
  match v with
  | RRef _ => false
  | _ => true
  end.

(** [x is y or x == y], as lists and dictionaries compare their elements:
    the same object is equal to itself; two lists are equal when they are as
    long and equal element by element, two dictionaries when they are as
    large and agree key by key.  [fuel] is the depth of nesting the
    comparison may still enter. *)
Fixpoint req (fuel : nat) (h : heap) (x y : rvalue) {struct fuel} : result bool :=
  match x, y with
  | RRef a, RRef b =>
      if Nat.eqb a b then Done true
      else
        match fuel with
        | O => TooDeep
        | S fuel' =>
            match deref h a, deref h b with
            | Some (OList l1), Some (OList l2) =>
                if Nat.eqb (List.length l1) (List.length l2) then
                  (fix all (l1 l2 : list rvalue) : result bool :=
                     match l1, l2 with
                     | x1 :: r1, x2 :: r2 =>
                         same <~ req fuel' h x1 x2 ;;
                         if same then all r1 r2 else Done false
                     | _, _ => Done true
                     end) l1 l2
                else Done false
            | Some (ODict d1), Some (ODict d2) =>
                if Nat.eqb (List.length d1) (List.length d2) then
                  (fix all (d : list (string * rvalue)) : result bool :=
                     match d with
                     | [] => Done true
                     | (k, v1) :: r =>
                         match dict_get k d2 with
                         | None => Done false
                         | Some v2 =>
                             same <~ req fuel' h v1 v2 ;;
                             if same then all r else Done false
                         end
                     end) d1
                else Done false
            | _, _ => Done false
            end
        end
  | RRef _, _ => Done false
  | _, RRef _ => Done false
  | _, _ => Done (atom_eqb x y)
  end.

(** The position of the first element of the list equal to [item]. *)
Fixpoint index_of (fuel : nat) (h : heap) (item : rvalue) (l : list rvalue)
  : result (option nat) :=
  match l with
  | [] => Done None
  | e :: rest =>
      same <~ req fuel h e item ;;
      if same then Done (Some O)
      else
        found <~ index_of fuel h item rest ;;
        Done (match found with Some i => Some (S i) | None => None end)
  end.

Fixpoint drop_at (i : nat) (l : list rvalue) : list rvalue :=
  match l, i with
  | [], _ => []
  | _ :: rest, O => rest
  | e :: rest, S i' => e :: drop_at i' rest
  end.

(** [item in container] *)
Definition contains (fuel : nat) (h : heap) (container item : rvalue) : result bool :=
  match container with
  | RRef a =>
      match deref h a with
      | Some (OList l) =>
          found <~ index_of fuel h item l ;;
          Done (match found with Some _ => true | None => false end)
      | Some (ODict d) =>
          match item with
          | RStr k => Done (dict_mem k d)
          | RRef _ => Fail TypeError
          | _ => Done false
          end
      | None => Fail TypeError
      end
  | RStr s =>
      match item with
      | RStr t => Done (substring_of t s)
      | _ => Fail TypeError
      end
  | _ => Fail TypeError
  end.

(** [key in self.data_store] and [self.data_store[key]] *)
Definition store_find (key : rvalue) (store : list (rvalue * addr)) : option addr :=
  afind (fun k => atom_eqb k key) store.

(** [insert_one]: [doc_data] is a new dictionary object holding what the
    document holds, so a list in the document is in the record too. *)
Definition insert_one (st : state) (document : list (string * rvalue))
  : state * result bool :=
  match dict_get "_id" document with
  | None => (st, Fail KeyError)
  | Some doc_id =>
      let doc_data := filter (fun kv => negb (String.eqb (fst kv) "_id")) document in
      if hashable doc_id then
        let (h, r) := alloc (objects st) (ODict doc_data) in
        ({| data_store := aset (fun k => atom_eqb k doc_id) doc_id r (data_store st);
            objects := h |},
         Done true)
      else (st, Fail TypeError)
  end.

(** The [$push] loop on the record at [r]:
    [if field not in record: record[field] = []] allocates a list and
    mutates the record, [record[field].append(value)] mutates the list the
    field holds.  A record that is a list cannot be indexed by a field, in
    either branch. *)
Fixpoint push_fields (r : addr) (items : list (string * rvalue)) (h : heap)
  : heap * result unit :=
  match items with
  | [] => (h, Done tt)
  | (field, value) :: rest =>
      match deref h r with
      | Some (ODict entries) =>
          let (h1, entries1) :=
            if negb (dict_mem field entries) then
              let (h', fresh) := alloc h (OList []) in
              (put h' r (ODict (dict_set field (RRef fresh) entries)),
               dict_set field (RRef fresh) entries)
            else (h, entries) in
          match dict_get field entries1 with
          | Some (RRef l) =>
              match deref h1 l with
              | Some (OList xs) => push_fields r rest (put h1 l (OList (xs ++ [value])))
              | _ => (h1, Fail AttributeError)
              end
          | _ => (h1, Fail AttributeError)
          end
      | _ => (h, Fail TypeError)
      end
  end.

(** The [$pull] loop on the record at [r]:
    [record[field].remove(value)] mutates the list the field holds.  A
    record that is a list is skipped for a field it does not contain and
    cannot be indexed by one it contains. *)
Fixpoint pull_fields (fuel : nat) (r : addr) (items : list (string * rvalue)) (h : heap)
  : heap * result unit :=
  match items with
  | [] => (h, Done tt)
  | (field, value) :: rest =>
      match deref h r with
      | Some (ODict entries) =>
          match dict_get field entries with
          | None => pull_fields fuel r rest h
          | Some container =>
              match contains fuel h container value with
              | Fail e => (h, Fail e)
              | TooDeep => (h, TooDeep)
              | Done false => pull_fields fuel r rest h
              | Done true =>
                  match container with
                  | RRef l =>
                      match deref h l with
                      | Some (OList xs) =>
                          match index_of fuel h value xs with
                          | Done (Some i) =>
                              pull_fields fuel r rest (put h l (OList (drop_at i xs)))
                          | Done None => (h, Fail ValueError)
                          | Fail e => (h, Fail e)
                          | TooDeep => (h, TooDeep)
                          end
                      | _ => (h, Fail AttributeError)
                      end
                  | _ => (h, Fail AttributeError)
                  end
              end
          end
      | Some (OList ys) =>
          match index_of fuel h (RStr field) ys with
          | Done None => pull_fields fuel r rest h
          | Done (Some _) => (h, Fail TypeError)
          | Fail e => (h, Fail e)
          | TooDeep => (h, TooDeep)
          end
      | None => (h, Fail TypeError)
      end
  end.

(** [if op in update: for field, value in update[op].items(): ...] *)
Definition run_operator (op : string)
    (loop : addr -> list (string * rvalue) -> heap -> heap * result unit)
    (update : list (string * rvalue)) (r : addr) (h : heap) : heap * result unit :=
  match dict_get op update with
  | None => (h, Done tt)
  | Some (RRef p) =>
      match deref h p with
      | Some (ODict items) => loop r items h
      | _ => (h, Fail AttributeError)
      end
  | Some _ => (h, Fail AttributeError)
  end.

Definition update_one (fuel : nat) (st : state) (query update : list (string * rvalue))
  : state * result update_result :=
  match dict_get "_id" query with
  | None => (st, Done {| modified_count := 0 |})
  | Some key =>
      if negb (hashable key) then (st, Fail TypeError)
      else
        match store_find key (data_store st) with
        | None => (st, Done {| modified_count := 0 |})
        | Some r =>
            let (h1, pushed) := run_operator "$push" push_fields update r (objects st) in
            match pushed with
            | Done _ =>
                let (h2, pulled) :=
                  run_operator "$pull" (pull_fields fuel) update r h1 in
                ({| data_store := data_store st; objects := h2 |},
                 match pulled with
                 | Done _ => Done {| modified_count := 1 |}
                 | Fail e => Fail e
                 | TooDeep => TooDeep
                 end)
            | Fail e => ({| data_store := data_store st; objects := h1 |}, Fail e)
            | TooDeep => ({| data_store := data_store st; objects := h1 |}, TooDeep)
            end
        end
  end.

(** *** Reading the heap *)

(** What [x] holds, as a value: the object behind a reference copied out,
    to the depth [fuel]. *)
Fixpoint snapshot (fuel : nat) (h : heap) (x : rvalue) {struct fuel} : option value :=
  match x with
  | RNone => Some VNone
  | RBool b => Some (VBool b)
  | RInt z => Some (VInt z)
  | RStr s => Some (VStr s)
  | RRef a =>
      match fuel with
      | O => None
      | S fuel' =>
          match deref h a with
          | Some (OList l) =>
              option_map VList
                ((fix each (l : list rvalue) : option (list value) :=
                    match l with
                    | [] => Some []
                    | x :: rest =>
                        match snapshot fuel' h x, each rest with
                        | Some v, Some vs => Some (v :: vs)
                        | _, _ => None
                        end
                    end) l)
          | Some (ODict d) =>
              option_map VDict
                ((fix each (d : list (string * rvalue)) : option (list (string * value)) :=
                    match d with
                    | [] => Some []
                    | (k, x) :: rest =>
                        match snapshot fuel' h x, each rest with
                        | Some v, Some vs => Some ((k, v) :: vs)
                        | _, _ => None
                        end
                    end) d)
          | None => None
          end
      end
  end.

(** The store read as a store of records held by value. *)
Definition snapshot_store (fuel : nat) (st : state) : option store :=
  fold_right
    (fun entry rest =>
       match snapshot fuel (objects st) (fst entry),
             snapshot fuel (objects st) (RRef (snd entry)), rest with
       | Some key, Some (VDict record), Some others => Some ((key, record) :: others)
       | _, _, _ => None
       end)
    (Some []) (data_store st).


(** What the record at [r] holds under [f]. *)
Definition field (h : heap) (r : addr) (f : string) : option rvalue :=
  match deref h r with
  | Some (ODict entries) => dict_get f entries
  | _ => None
  end.



(** What the [$push] loop on the record at [r] may do between the heaps
    [h] and [h1] when it names the fields in [N]: allocate, add fields in
    [N] that hold new lists, and mutate the lists under fields in [N]. *)
Definition pushed (r : addr) (N : string -> Prop) (h h1 : heap) : Prop :=
  List.length h <= List.length h1
  /\ (forall f, ~ N f -> field h1 r f = field h r f)
  /\ (forall f x, field h r f = Some x -> field h1 r f = Some x)
  /\ (forall f x, field h1 r f = Some x ->
                  field h r f = Some x
                  \/ (N f /\ exists a, x = RRef a /\ List.length h <= a))
  /\ (forall a o, deref h a = Some o -> a <> r ->
                  (forall f, N f -> field h r f <> Some (RRef a)) ->
                  deref h1 a = Some o)
  /\ (forall a d, a <> r ->
                  (deref h1 a = Some (ODict d) <-> deref h a = Some (ODict d))).

(** What the [$pull] loop may do: mutate the lists under fields in [N]. *)
Definition pulled (r : addr) (N : string -> Prop) (h h2 : heap) : Prop :=
  (forall a d, deref h2 a = Some (ODict d) <-> deref h a = Some (ODict d))
  /\ (forall a o, deref h a = Some o ->
                  (forall f, N f -> field h r f <> Some (RRef a)) ->
                  deref h2 a = Some o).

End Ref.

(** ** Vocabulary of the statements *)

(** The store reached by inserting an empty record under ["A"] and pushing
    ["x"] onto its field [_id]. *)
Definition own_id_store : store := [(VStr "A", [("_id", VList [VStr "x"])])].

(** The record has no [schedule_details.sub]: no [schedule_details] at all,
    or a nested record without [sub]. *)
Definition path_absent (sub : string) (record : dict) : Prop :=
  dict_get "schedule_details" record = None
  \/ exists details,
      dict_get "schedule_details" record = Some (VDict details)
      /\ dict_get sub details = None.

(** The clauses under which a record lacking the path is turned down:
    [$in] with a list on [schedule_details.days], and [$gte] with a
    non-empty string on [schedule_details.start_time]. *)
Inductive turns_down (record : dict) : string * value -> Prop :=
| turns_down_in (c : dict) (wanted : list value) :
    dict_get "$in" c = Some (VList wanted) ->
    path_absent "days" record ->
    turns_down record ("schedule_details.days", VDict c)
| turns_down_gte (c : dict) (bound : string) :
    dict_get "$gte" c = Some (VStr bound) ->
    bound <> "" ->
    path_absent "start_time" record ->
    turns_down record ("schedule_details.start_time", VDict c).

(** The shape the seed data gives [schedule_details]: a nested record whose
    [days], when there, is a list of strings. *)
Definition days_typed (record : dict) : Prop :=
  forall v, dict_get "schedule_details" record = Some v ->
    exists details, v = VDict details
      /\ forall w, dict_get "days" details = Some w ->
           exists days, w = VList (map VStr days).

(** [day] occurs in the record's [schedule_details.days]. *)
Definition has_day (record : dict) (day : string) : Prop :=
  exists details days,
    dict_get "schedule_details" record = Some (VDict details)
    /\ dict_get "days" details = Some (VList days)
    /\ In (VStr day) days.

Definition str_lt (a b : string) : Prop := String.ltb a b = true.

(** The document [find] builds for an entry of the store. *)
Definition doc_of (e : value * dict) : dict := with_id (fst e) (snd e).

(** The entry's document passes the query. *)
Definition matches (query : dict) (e : value * dict) : bool :=
  match _matches_query (doc_of e) query with
  | Ok true => true
  | _ => false
  end.

(** The field paths [_matches_query] looks at. *)
Definition recognised (key : string) : bool :=
  String.eqb key "schedule_details.days"
  || String.eqb key "schedule_details.start_time"
  || String.eqb key "schedule_details.end_time"
  || String.eqb key "difficulty_level".

(** The record's [schedule_details] is absent or a nested record whose
    [days], when there, is a list. *)
Definition days_shaped (record : dict) : Prop :=
  forall v, dict_get "schedule_details" record = Some v ->
    exists details, v = VDict details
      /\ forall w, dict_get "days" details = Some w -> exists days, w = VList days.

(** What [_matches_query] reads as the record's days. *)
Definition record_days (record : dict) : list value :=
  match dict_get "schedule_details" record with
  | Some (VDict details) =>
      match dict_get "days" details with
      | Some (VList days) => days
      | _ => []
      end
  | _ => []
  end.

(** The record's [schedule_details] is absent or a nested record whose
    [start_time] and [end_time], when there, are strings. *)
Definition times_shaped (record : dict) : Prop :=
  forall v, dict_get "schedule_details" record = Some v ->
    exists details, v = VDict details
      /\ forall sub w, dict_get sub details = Some w ->
           sub = "start_time" \/ sub = "end_time" -> exists t, w = VStr t.

(** What [_matches_query] reads as the record's time under [sub]. *)
Definition record_time (sub : string) (record : dict) : string :=
  match dict_get "schedule_details" record with
  | Some (VDict details) =>
      match dict_get sub details with
      | Some (VStr t) => t
      | _ => ""
      end
  | _ => ""
  end.

(** The record has a [difficulty_level] that is not [None]. *)
Definition has_level (record : dict) : bool :=
  match dict_get "difficulty_level" record with
  | Some VNone | None => false
  | Some _ => true
  end.

(** * Properties *)

(** ** Association lists *)

Section AlistFacts.
Context {K V : Type}.
Implicit Types (p q : K -> bool) (l : list (K * V)).

Lemma afind_aupdate p (f : V -> V) l :
  afind p (aupdate p f l) = option_map f (afind p l).
Proof.
  induction l as [| [k v] l IH]; simpl; [reflexivity |].
  destruct (p k) eqn:E; simpl; rewrite E; [reflexivity | exact IH].
Qed.

Lemma aupdate_same p l v :
  afind p l = Some v -> aupdate p (fun _ => v) l = l.
Proof.
  induction l as [| [k w] l IH]; simpl; [reflexivity |].
  destruct (p k); intros H.
  - now inversion H.
  - now rewrite IH.
Qed.

Lemma afind_aset_same p k v l :
  p k = true -> afind p (aset p k v l) = Some v.
Proof.
  intros Hk. induction l as [| [k' w] l IH]; simpl.
  - now rewrite Hk.
  - destruct (p k') eqn:E; simpl; rewrite E; [reflexivity | exact IH].
Qed.

Lemma afind_aset_other p q k v l :
  q k = false -> (forall k', p k' = true -> q k' = false) ->
  afind q (aset p k v l) = afind q l.
Proof.
  intros Hk Hpq. induction l as [| [k' w] l IH]; simpl.
  - now rewrite Hk.
  - destruct (p k') eqn:E; simpl.
    + now rewrite (Hpq _ E).
    + now rewrite IH.
Qed.

Lemma aset_absent p k v l :
  afind p l = None -> aset p k v l = l ++ [(k, v)].
Proof.
  induction l as [| [k' w] l IH]; simpl; [reflexivity |].
  destruct (p k'); intros H; [discriminate | now rewrite IH].
Qed.

End AlistFacts.

(** ** Dictionaries *)

Lemma dict_get_set_same {V : Type} (k : string) (v : V) d :
  dict_get k (dict_set k v d) = Some v.
Proof. apply afind_aset_same, String.eqb_refl. Qed.

Lemma dict_get_set_other {V : Type} (k k' : string) (v : V) d :
  k' <> k -> dict_get k' (dict_set k v d) = dict_get k' d.
Proof.
  intros Hne. apply afind_aset_other.
  - now apply String.eqb_neq.
  - intros x Hx. apply String.eqb_eq in Hx. subst x. now apply String.eqb_neq.
Qed.

Lemma dict_mem_get {V : Type} (k : string) (d : list (string * V)) :
  dict_mem k d = false <-> dict_get k d = None.
Proof.
  unfold dict_mem, amem, dict_get.
  destruct (afind (String.eqb k) d); split; intros H; congruence.
Qed.

Lemma dict_get_not_in {V : Type} (k : string) (d : list (string * V)) :
  dict_get k d = None <-> ~ In k (map fst d).
Proof.
  unfold dict_get. induction d as [| [k' v] d IH]; simpl.
  - tauto.
  - destruct (String.eqb k k') eqn:E.
    + apply String.eqb_eq in E. subst. split; [discriminate | tauto].
    + apply String.eqb_neq in E. rewrite IH. split; [intros H [C | C] | ]; auto.
Qed.

(** Merging a dictionary with distinct keys into one that has none of them
    appends it. *)
Lemma dict_merge_disjoint {V : Type} (extra base : list (string * V)) :
  dict_wf extra ->
  (forall k, In k (map fst extra) -> dict_get k base = None) ->
  dict_merge base extra = base ++ extra.
Proof.
  unfold dict_merge, dict_wf.
  revert base. induction extra as [| [k v] extra IH]; simpl; intros base Hwf Hdis.
  - now rewrite app_nil_r.
  - inversion Hwf as [| ? ? Hk Hwf']; subst.
    unfold dict_set at 2. rewrite aset_absent by (apply Hdis; now left).
    rewrite IH; [now rewrite <- app_assoc | assumption |].
    intros k' Hk'. unfold dict_get.
    assert (Hne : k' <> k) by (intros ->; contradiction).
    change (dict_get k' (base ++ [(k, v)]) = None).
    apply dict_get_not_in. rewrite map_app, in_app_iff. simpl.
    intros [C | [C | []]]; [| congruence].
    specialize (Hdis k' (or_intror Hk')). now apply dict_get_not_in in Hdis.
Qed.

(** With distinct keys in [extra], a lookup in the merge sees [extra] first. *)
Lemma dict_get_merge {V : Type} (k : string) (extra base : list (string * V)) :
  dict_wf extra ->
  dict_get k (dict_merge base extra) =
  match dict_get k extra with
  | Some v => Some v
  | None => dict_get k base
  end.
Proof.
  unfold dict_merge, dict_wf.
  revert base. induction extra as [| [k' v] extra IH]; simpl; intros base Hwf.
  - reflexivity.
  - inversion Hwf as [| ? ? Hk Hwf']; subst.
    rewrite IH by assumption.
    unfold dict_get at 3. simpl.
    destruct (String.eqb k k') eqn:E.
    + apply String.eqb_eq in E. subst k'.
      apply dict_get_not_in in Hk. rewrite Hk. apply dict_get_set_same.
    + fold (dict_get k extra). destruct (dict_get k extra); [reflexivity |].
      apply dict_get_set_other. now apply String.eqb_neq.
Qed.

(** ** Python equality *)

(** Induction on values that reaches inside lists and dictionaries. *)
Lemma value_nested_ind (P : value -> Prop) :
  P VNone ->
  (forall b, P (VBool b)) ->
  (forall z, P (VInt z)) ->
  (forall s, P (VStr s)) ->
  (forall l, Forall P l -> P (VList l)) ->
  (forall d, Forall (fun kv => P (snd kv)) d -> P (VDict d)) ->
  forall v, P v.
Proof.
  intros HN HB HI HS HL HD.
  fix IH 1.
  intros [| b | z | s | l | d].
  - exact HN.
  - apply HB.
  - apply HI.
  - apply HS.
  - apply HL. induction l as [| x l IHl]; constructor; [apply IH | exact IHl].
  - apply HD. induction d as [| [k x] d IHd]; constructor; [apply IH | exact IHd].
Qed.

Lemma py_eqb_refl (v : value) : py_eqb v v = true.
Proof.
  induction v as [| b | z | s | l IHl | d IHd] using value_nested_ind; simpl.
  - reflexivity.
  - now destruct b.
  - apply Z.eqb_refl.
  - apply String.eqb_refl.
  - induction IHl as [| x l Hx _ IH]; [reflexivity |].
    now rewrite Hx, IH.
  - rewrite Nat.eqb_refl. simpl.
    apply forallb_forall. intros kv Hin.
    apply existsb_exists. exists kv. split; [exact Hin |].
    rewrite String.eqb_refl. simpl.
    rewrite Forall_forall in IHd. now apply IHd.
Qed.

(** A stored key equal to a string key is that string. *)
Lemma py_eqb_str (v : value) (s : string) : py_eqb v (VStr s) = true <-> v = VStr s.
Proof.
  destruct v; simpl; split; intros H; try discriminate; try congruence.
  - apply String.eqb_eq in H. now subst.
  - inversion H. apply String.eqb_refl.
Qed.

(** ** The store *)

Lemma store_write_same key record data_store :
  store_get key data_store = Some record ->
  store_write key record data_store = data_store.
Proof. apply aupdate_same. Qed.

Lemma store_get_write key record record' data_store :
  store_get key data_store = Some record ->
  store_get key (store_write key record' data_store) = Some record'.
Proof.
  intros H. unfold store_get, store_write. rewrite afind_aupdate.
  unfold store_get in H. now rewrite H.
Qed.

Lemma store_contains_hashable key data_store :
  py_hashable key = true ->
  store_contains key data_store =
  Ok (match store_get key data_store with Some _ => true | None => false end).
Proof. intros H. unfold store_contains. now rewrite H. Qed.

(** ** [count_documents] *)

(** C3. For every store and every query argument, [count_documents] returns
    the number of records in the store -- which is also the number of
    documents [find] returns for the absent query -- and two query arguments
    give the same count. *)
Theorem count_documents_ignores_query (data_store : store) (query : value) :
  count_documents data_store query = List.length data_store
  /\ (forall query' : value,
         count_documents data_store query' = count_documents data_store query)
  /\ (exists docs, find data_store None = Ok docs
                   /\ List.length docs = count_documents data_store query).
Proof.
  repeat split.
  eexists. split; [reflexivity |].
  unfold count_documents. apply length_map.
Qed.

(** ** [update_one] without an identity *)

(** C10. For a query that has no [_id] entry, [update_one] raises nothing:
    it returns modified count 0 and the store as it was, whatever the update
    argument. *)
Theorem update_one_without_id (data_store : store) (query update : dict) :
  dict_mem "_id" query = false ->
  update_one data_store query update = (data_store, Ok {| modified_count := 0 |}).
Proof.
  intros H. apply dict_mem_get in H. unfold update_one. now rewrite H.
Qed.

Lemma update_one_without_id_witness :
  update_one [(VStr "Chess Club", [("participants", VList [])])]
             [("name", VStr "Chess Club")]
             [("$push", VDict [("participants", VStr "a@x.edu")])]
  = ([(VStr "Chess Club", [("participants", VList [])])],
     Ok {| modified_count := 0 |}).
Proof. apply update_one_without_id. reflexivity. Defined.

(** ** [find_one] *)

(** C8. When the query has an [_id] entry (a hashable value, as every
    identity key is), [find_one] returns the record stored under it with
    [_id] attached, or [None] when the store has no such key; when the query
    has no [_id] entry it returns [None] whatever the store holds. *)
Theorem find_one_by_id_only (data_store : store) (query : dict) :
  (forall key, dict_get "_id" query = Some key -> py_hashable key = true ->
     find_one data_store query =
     Ok (match store_get key data_store with
         | Some record => Some (with_id key record)
         | None => None
         end))
  /\ (dict_mem "_id" query = false -> find_one data_store query = Ok None).
Proof.
  split.
  - intros key Hq Hh. unfold find_one. rewrite Hq.
    rewrite store_contains_hashable by exact Hh. simpl.
    now destruct (store_get key data_store).
  - intros H. apply dict_mem_get in H. unfold find_one. now rewrite H.
Qed.

Lemma find_one_by_id_only_witness :
  find_one [(VStr "Chess Club", [("max_participants", VInt 2)])]
           [("_id", VStr "Chess Club")]
  = Ok (Some [("_id", VStr "Chess Club"); ("max_participants", VInt 2)])
  /\ find_one [(VStr "Chess Club", [("max_participants", VInt 2)])]
              [("_id", VStr "Art Club")] = Ok None
  /\ find_one [(VStr "Chess Club", [("max_participants", VInt 2)])]
              [("max_participants", VInt 2)] = Ok None.
Proof.
  split; [| split].
  - exact (proj1 (find_one_by_id_only
                    [(VStr "Chess Club", [("max_participants", VInt 2)])]
                    [("_id", VStr "Chess Club")])
                 (VStr "Chess Club") eq_refl eq_refl).
  - exact (proj1 (find_one_by_id_only
                    [(VStr "Chess Club", [("max_participants", VInt 2)])]
                    [("_id", VStr "Art Club")])
                 (VStr "Art Club") eq_refl eq_refl).
  - exact (proj2 (find_one_by_id_only
                    [(VStr "Chess Club", [("max_participants", VInt 2)])]
                    [("max_participants", VInt 2)]) eq_refl).
Defined.

(** ** [update_one] *)

(** What [update_one] does to the store: nothing, or it rewrites the record
    found under the key. *)
Lemma update_one_store (data_store : store) (query update : dict) key :
  dict_get "_id" query = Some key ->
  fst (update_one data_store query update) = data_store
  \/ exists record record',
      store_get key data_store = Some record
      /\ fst (update_one data_store query update)
         = store_write key record' data_store.
Proof.
  intros Hq. unfold update_one. rewrite Hq.
  destruct (py_hashable key); simpl; [| now left].
  destruct (store_get key data_store) as [record |] eqn:Hget; [| now left].
  right. exists record.
  destruct (run_operator "$push" push_fields update record) as [record1 pushed].
  destruct pushed as [[] | e]; simpl.
  - destruct (run_operator "$pull" pull_fields update record1) as [record2 pulled].
    exists record2. now split.
  - exists record1. now split.
Qed.

(** [update_one] on a query that is exactly [{"_id": key}] for a key the
    store holds. *)
Lemma update_one_found (data_store : store) (key : value) (record update : dict) :
  py_hashable key = true ->
  store_get key data_store = Some record ->
  update_one data_store [("_id", key)] update =
  let (record1, pushed) := run_operator "$push" push_fields update record in
  match pushed with
  | Raise e => (store_write key record1 data_store, Raise e)
  | Ok _ =>
      let (record2, pulled) := run_operator "$pull" pull_fields update record1 in
      (store_write key record2 data_store,
       match pulled with
       | Ok _ => Ok {| modified_count := 1 |}
       | Raise e => Raise e
       end)
  end.
Proof.
  intros Hh Hget. unfold update_one.
  change (dict_get "_id" [("_id", key)]) with (Some key).
  cbv beta iota. rewrite Hh. cbn [negb]. unfold store_get in Hget |- *.
  now rewrite Hget.
Qed.

Lemma push_fields_single (f : string) (v : value) (record : dict) :
  dict_get f record = None ->
  push_fields [(f, v)] record
  = (dict_set f (VList [v]) (dict_set f (VList []) record), Ok tt).
Proof.
  intros Hf. simpl.
  apply dict_mem_get in Hf. rewrite Hf. simpl.
  now rewrite dict_get_set_same.
Qed.

Lemma pull_fields_single_miss (f : string) (v : value) (record : dict) :
  dict_get f record = None
  \/ (exists l, dict_get f record = Some (VList l)
                /\ existsb (fun e => py_eqb e v) l = false) ->
  pull_fields [(f, v)] record = (record, Ok tt).
Proof.
  intros [Hf | (l & Hf & Hl)]; simpl; rewrite Hf; [reflexivity |].
  simpl. now rewrite Hl.
Qed.

Lemma pull_fields_single_hit (f : string) (v : value) (record : dict) :
  dict_get f record = Some (VList [v]) ->
  pull_fields [(f, v)] record = (dict_set f (VList []) record, Ok tt).
Proof.
  intros Hf. simpl. rewrite Hf. simpl. now rewrite py_eqb_refl.
Qed.

(** C2. When the store holds [key] and the record there either lacks field
    [f] or holds under [f] a sequence in which [v] does not occur,
    [update_one({"_id": key}, {"$pull": {f: v}})] leaves the store exactly as
    it was and returns modified count 1. *)
Theorem update_one_pull_missing (data_store : store) (key : value) (record : dict)
    (f : string) (v : value) :
  py_hashable key = true ->
  store_get key data_store = Some record ->
  (dict_get f record = None
   \/ exists l, dict_get f record = Some (VList l)
                /\ existsb (fun e => py_eqb e v) l = false) ->
  update_one data_store [("_id", key)] [("$pull", VDict [(f, v)])]
  = (data_store, Ok {| modified_count := 1 |}).
Proof.
  intros Hh Hget Hmiss.
  rewrite (update_one_found _ _ record) by assumption.
  unfold run_operator.
  change (dict_get "$push" [("$pull", VDict [(f, v)])]) with (@None value).
  change (dict_get "$pull" [("$pull", VDict [(f, v)])]) with (Some (VDict [(f, v)])).
  cbn [py_items].
  rewrite pull_fields_single_miss by exact Hmiss.
  now rewrite store_write_same.
Qed.

Lemma update_one_pull_missing_witness :
  update_one
    [(VStr "Chess Club", [("participants", VList [VStr "a@x.edu"])])]
    [("_id", VStr "Chess Club")]
    [("$pull", VDict [("participants", VStr "b@x.edu")])]
  = ([(VStr "Chess Club", [("participants", VList [VStr "a@x.edu"])])],
     Ok {| modified_count := 1 |})
  /\ update_one
       [(VStr "Chess Club", [("participants", VList [VStr "a@x.edu"])])]
       [("_id", VStr "Chess Club")]
       [("$pull", VDict [("waitlist", VStr "a@x.edu")])]
     = ([(VStr "Chess Club", [("participants", VList [VStr "a@x.edu"])])],
        Ok {| modified_count := 1 |}).
Proof.
  split.
  - apply (update_one_pull_missing _ _ [("participants", VList [VStr "a@x.edu"])]);
      [reflexivity | reflexivity |].
    right. exists [VStr "a@x.edu"]. split; reflexivity.
  - apply (update_one_pull_missing _ _ [("participants", VList [VStr "a@x.edu"])]);
      [reflexivity | reflexivity |].
    left. reflexivity.
Defined.

(** C7. When the store holds [key] and the record there lacks field [f],
    [update_one({"_id": key}, {"$push": {f: v}})] reports one record
    modified and leaves the record with [f] equal to [[v]]; the following
    [update_one({"_id": key}, {"$pull": {f: v}})] reports one record modified
    and leaves [f] equal to the empty sequence. *)
Theorem update_one_push_then_pull (data_store : store) (key : value) (record : dict)
    (f : string) (v : value) :
  py_hashable key = true ->
  store_get key data_store = Some record ->
  dict_get f record = None ->
  exists store1 record1 store2 record2,
    update_one data_store [("_id", key)] [("$push", VDict [(f, v)])]
    = (store1, Ok {| modified_count := 1 |})
    /\ store_get key store1 = Some record1
    /\ dict_get f record1 = Some (VList [v])
    /\ update_one store1 [("_id", key)] [("$pull", VDict [(f, v)])]
       = (store2, Ok {| modified_count := 1 |})
    /\ store_get key store2 = Some record2
    /\ dict_get f record2 = Some (VList []).
Proof.
  intros Hh Hget Hf.
  set (record1 := dict_set f (VList [v]) (dict_set f (VList []) record)).
  set (store1 := store_write key record1 data_store).
  assert (Hget1 : store_get key store1 = Some record1)
    by (apply (store_get_write _ record); exact Hget).
  assert (Hf1 : dict_get f record1 = Some (VList [v]))
    by apply dict_get_set_same.
  exists store1, record1,
    (store_write key (dict_set f (VList []) record1) store1),
    (dict_set f (VList []) record1).
  split; [| split; [exact Hget1 | split; [exact Hf1 | split; [| split]]]].
  - rewrite (update_one_found _ _ record) by assumption.
    unfold run_operator.
    change (dict_get "$push" [("$push", VDict [(f, v)])]) with (Some (VDict [(f, v)])).
    change (dict_get "$pull" [("$push", VDict [(f, v)])]) with (@None value).
    cbn [py_items].
    now rewrite push_fields_single by exact Hf.
  - rewrite (update_one_found _ _ record1) by assumption.
    unfold run_operator.
    change (dict_get "$push" [("$pull", VDict [(f, v)])]) with (@None value).
    change (dict_get "$pull" [("$pull", VDict [(f, v)])]) with (Some (VDict [(f, v)])).
    cbn [py_items].
    now rewrite pull_fields_single_hit by exact Hf1.
  - apply (store_get_write _ record1). exact Hget1.
  - apply dict_get_set_same.
Qed.

Lemma update_one_push_then_pull_witness :
  exists store1 record1 store2 record2,
    update_one [(VStr "Chess Club", [("max_participants", VInt 2)])]
               [("_id", VStr "Chess Club")]
               [("$push", VDict [("participants", VStr "a@x.edu")])]
    = (store1, Ok {| modified_count := 1 |})
    /\ store_get (VStr "Chess Club") store1 = Some record1
    /\ dict_get "participants" record1 = Some (VList [VStr "a@x.edu"])
    /\ update_one store1 [("_id", VStr "Chess Club")]
                  [("$pull", VDict [("participants", VStr "a@x.edu")])]
       = (store2, Ok {| modified_count := 1 |})
    /\ store_get (VStr "Chess Club") store2 = Some record2
    /\ dict_get "participants" record2 = Some (VList []).
Proof.
  apply (update_one_push_then_pull _ _ [("max_participants", VInt 2)]);
    reflexivity.
Defined.

(** ** [find] with the empty query *)

Lemma with_id_plain (key : value) (record : dict) :
  dict_wf record -> dict_get "_id" record = None ->
  with_id key record = ("_id", key) :: record.
Proof.
  intros Hwf Hid. unfold with_id.
  rewrite dict_merge_disjoint; [reflexivity | exact Hwf |].
  intros k Hk. unfold dict_get. simpl.
  destruct (String.eqb k "_id") eqn:E; [| reflexivity].
  apply String.eqb_eq in E. subst k.
  apply dict_get_not_in in Hid. contradiction.
Qed.

Lemma with_id_get (key : value) (record : dict) (f : string) :
  dict_wf record ->
  dict_get f (with_id key record) =
  match dict_get f record with
  | Some v => Some v
  | None => if String.eqb f "_id" then Some key else None
  end.
Proof.
  intros Hwf. unfold with_id. now rewrite dict_get_merge.
Qed.

(** C5, as stated, fails on a record that has a field named [_id]:
    [own_id_store] is reached through [insert_one] and [update_one], and the
    one document [find] returns for it carries the record's own [_id], not
    the identity key ["A"]. *)
Lemma find_all_own_id_counterexample :
  (exists s, insert_one [] [("_id", VStr "A")] = Ok (s, true)
             /\ update_one s [("_id", VStr "A")] [("$push", VDict [("_id", VStr "x")])]
                = (own_id_store, Ok {| modified_count := 1 |}))
  /\ find own_id_store None = Ok [[("_id", VList [VStr "x"])]]
  /\ ~ (exists docs, find own_id_store None = Ok docs
                     /\ Forall2 (fun e doc => dict_get "_id" doc = Some (fst e))
                                own_id_store docs).
Proof.
  split; [| split].
  - eexists. split; reflexivity.
  - reflexivity.
  - intros (docs & Hfind & Hall).
    inversion Hfind; subst docs.
    inversion Hall as [| ? ? ? ? Hhead _]; subst.
    discriminate Hhead.
Qed.

(** C5, amended.  For every store, [find] with the absent or the empty query
    returns one document per stored record, in the order of the store.  The
    document of a record is [{"_id": key, **record}]: every field of the
    record other than [_id] as stored, and, when the record has no field
    [_id], the record with the identity key put in front under [_id]; a field
    [_id] of the record itself takes the place of the identity key. *)
Theorem find_all_in_order (data_store : store) :
  exists docs,
    find data_store None = Ok docs
    /\ find data_store (Some []) = Ok docs
    /\ Forall2 (fun e doc =>
                  doc = with_id (fst e) (snd e)
                  /\ (dict_wf (snd e) ->
                      (dict_get "_id" (snd e) = None -> doc = ("_id", fst e) :: snd e)
                      /\ (forall v, dict_get "_id" (snd e) = Some v ->
                                    dict_get "_id" doc = Some v)
                      /\ (forall f, f <> "_id" ->
                                    dict_get f doc = dict_get f (snd e))))
               data_store docs.
Proof.
  exists (map (fun kv => with_id (fst kv) (snd kv)) data_store).
  split; [reflexivity | split; [reflexivity |]].
  induction data_store as [| [key record] rest IH]; simpl; constructor; [| exact IH].
  simpl. split; [reflexivity |]. intros Hwf. split; [| split].
  - now apply with_id_plain.
  - intros v Hv. rewrite with_id_get by exact Hwf. now rewrite Hv.
  - intros f Hf. rewrite with_id_get by exact Hwf.
    destruct (dict_get f record); [reflexivity |].
    apply String.eqb_neq in Hf. now rewrite Hf.
Qed.

Lemma find_all_in_order_witness :
  exists docs,
    find [(VStr "Chess Club", [("max_participants", VInt 2)]);
          (VStr "Art Club", [("max_participants", VInt 15)])] None = Ok docs
    /\ docs = [[("_id", VStr "Chess Club"); ("max_participants", VInt 2)];
               [("_id", VStr "Art Club"); ("max_participants", VInt 15)]].
Proof.
  destruct (find_all_in_order
              [(VStr "Chess Club", [("max_participants", VInt 2)]);
               (VStr "Art Club", [("max_participants", VInt 15)])])
    as (docs & Hfind & _ & Hall).
  exists docs. split; [exact Hfind |].
  inversion Hall as [| e1 d1 l1 l1' [_ H1] Hrest]; subst.
  inversion Hrest as [| e2 d2 l2 l2' [_ H2] Hnil]; subst.
  inversion Hnil; subst.
  rewrite (proj1 (H1 ltac:(repeat constructor; simpl; intuition discriminate)) eq_refl).
  rewrite (proj1 (H2 ltac:(repeat constructor; simpl; intuition discriminate)) eq_refl).
  reflexivity.
Defined.

(** ** [init_database] *)

Lemma seed_activities_empty :
  seed_activities initial_activities []
  = Ok (map (fun entry => (VStr (fst entry), snd entry)) initial_activities).
Proof. vm_compute. reflexivity. Qed.

Lemma seed_teachers_empty (hash_password : string -> string) :
  seed_teachers (initial_teachers hash_password) []
  = Ok (map (fun teacher => (dict_get_or "username" teacher VNone, teacher))
            (initial_teachers hash_password)).
Proof. vm_compute. reflexivity. Qed.

(** C4. From any starting state [init_database] returns, and a second call
    right after it returns the state the first call left: the record count
    of each store is the same after the second call as after the first. *)
Theorem init_database_twice (hash_password : string -> string) (db : database) :
  exists db1 db2,
    init_database hash_password db = Ok db1
    /\ init_database hash_password db1 = Ok db2
    /\ db2 = db1
    /\ count_documents (activities_db db2) (VDict [])
       = count_documents (activities_db db1) (VDict [])
    /\ count_documents (teachers_db db2) (VDict [])
       = count_documents (teachers_db db1) (VDict []).
Proof.
  assert (Hfirst : exists db1, init_database hash_password db = Ok db1
                               /\ activities_db db1 <> [] /\ teachers_db db1 <> []).
  { destruct db as [activities teachers]. unfold init_database. simpl.
    destruct activities as [| a activities]; destruct teachers as [| t teachers];
      simpl; rewrite ?seed_activities_empty, ?seed_teachers_empty; simpl;
      eexists; (split; [reflexivity |]); simpl; split; discriminate. }
  destruct Hfirst as (db1 & H1 & Ha & Ht).
  exists db1, db1. split; [exact H1 |].
  assert (H2 : init_database hash_password db1 = Ok db1).
  { destruct db1 as [activities teachers]. simpl in Ha, Ht.
    unfold init_database. simpl.
    destruct activities; [contradiction |]. destruct teachers; [contradiction |].
    reflexivity. }
  repeat split. exact H2.
Qed.

(** ** [_matches_query] and records that lack a queried path *)

Lemma absent_path_default (key : value) (record : dict) (sub : string) (default : value) :
  dict_wf record -> path_absent sub record ->
  py_get (dict_get_or "schedule_details" (with_id key record) (VDict [])) sub default
  = Ok default.
Proof.
  intros Hwf Habs. unfold dict_get_or. rewrite with_id_get by exact Hwf.
  destruct Habs as [Hnone | (details & Hsome & Hsub)].
  - rewrite Hnone. reflexivity.
  - rewrite Hsome. simpl. now rewrite Hsub.
Qed.

Lemma py_any_in_empty (items : list value) : py_any_in items (VList []) = Ok false.
Proof. induction items as [| item rest IH]; simpl; [reflexivity | exact IH]. Qed.

Lemma ltb_empty (s : string) : s <> "" -> String.ltb "" s = true.
Proof. destruct s; [congruence | reflexivity]. Qed.

(** A clause that turns the record down makes [_matches_query] return
    [False] when it is reached. *)
Lemma turns_down_head (key : value) (record : dict) clause rest :
  dict_wf record -> turns_down record clause ->
  _matches_query (with_id key record) (clause :: rest) = Ok false.
Proof.
  intros Hwf [c wanted Hin Habs | c bound Hgte Hne Habs].
  - cbn [_matches_query String.eqb Ascii.eqb Bool.eqb].
    cbn [py_contains bind]. unfold dict_mem, amem. fold (dict_get "$in" c).
    rewrite Hin. cbn [bind].
    rewrite absent_path_default by assumption.
    cbn [bind py_getitem]. rewrite Hin. cbn [bind py_iter].
    rewrite py_any_in_empty. reflexivity.
  - cbn [_matches_query String.eqb Ascii.eqb Bool.eqb].
    cbn [py_contains bind]. unfold dict_mem, amem. fold (dict_get "$gte" c).
    rewrite Hgte. cbn [bind].
    rewrite absent_path_default by assumption.
    cbn [bind py_getitem]. rewrite Hgte. cbn [bind py_lt].
    rewrite ltb_empty by exact Hne. reflexivity.
Qed.

(** A query matches only if the query without its first clause does. *)
Lemma _matches_query_tail (doc : dict) (clause : string * value) (rest : dict) :
  _matches_query doc (clause :: rest) = Ok true -> _matches_query doc rest = Ok true.
Proof.
  destruct clause as [key condition]. cbn [_matches_query].
  repeat match goal with
         | |- context [if ?b then _ else _] => destruct b
         | |- context [bind ?m _] => destruct m; cbn [bind]
         | |- context [match ?c with VNone => _ | _ => _ end] => destruct c
         end; auto; discriminate.
Qed.

Lemma turns_down_anywhere (key : value) (record : dict) clause (query : dict) :
  dict_wf record -> turns_down record clause -> In clause query ->
  _matches_query (with_id key record) query <> Ok true.
Proof.
  intros Hwf Hdown. induction query as [| first rest IH]; intros Hin; [destruct Hin |].
  destruct Hin as [-> | Hin].
  - rewrite (turns_down_head key record clause rest Hwf Hdown). discriminate.
  - intros Hall. apply IH; [exact Hin |]. eapply _matches_query_tail, Hall.
Qed.

(** Every document [find] returns for a non-empty query was already among
    the results or matches the query. *)
Lemma find_from_matches (query : dict) (items : store) :
  forall results docs,
    find_from items query results = Ok docs ->
    forall doc, In doc docs ->
                In doc results \/ _matches_query doc query = Ok true.
Proof.
  induction items as [| [key value] rest IH]; intros results docs Hfind doc Hin;
    simpl in Hfind.
  - inversion Hfind; subst. now left.
  - destruct (_matches_query (with_id key value) query) as [[|] | e] eqn:Hm;
      simpl in Hfind; [| | discriminate].
    + destruct (IH _ _ Hfind doc Hin) as [Hacc | Hok]; [| now right].
      apply in_app_or in Hacc. destruct Hacc as [Hacc | [<- | []]]; auto.
    + exact (IH _ _ Hfind doc Hin).
Qed.

(** An absent [end_time] is read as the empty string, which no string
    bound of [$lte] is below: the clause lets the record through. *)
Lemma lte_passes_absent_end_time (key : value) (record c : dict) (bound : string) :
  dict_wf record -> path_absent "end_time" record ->
  dict_get "$lte" c = Some (VStr bound) ->
  _matches_query (with_id key record) [("schedule_details.end_time", VDict c)]
  = Ok true.
Proof.
  intros Hwf Habs Hlte.
  cbn [_matches_query String.eqb Ascii.eqb Bool.eqb].
  cbn [py_contains bind]. unfold dict_mem, amem. fold (dict_get "$lte" c).
  rewrite Hlte. cbn [bind].
  rewrite absent_path_default by assumption.
  cbn [bind py_getitem]. rewrite Hlte. cbn [bind py_gt py_lt].
  now destruct bound.
Qed.

(** C1, as stated, fails: a record without [schedule_details.end_time] is
    returned for a [$lte] clause on it, and a record without
    [schedule_details.start_time] is returned for [$gte] with the empty
    string. *)
Lemma find_absent_path_counterexample :
  find [(VStr "Chess Club", [("schedule_details", VDict [("days", VList [VStr "Monday"])])])]
       (Some [("schedule_details.end_time", VDict [("$lte", VStr "17:00")])])
  = Ok [[("_id", VStr "Chess Club");
         ("schedule_details", VDict [("days", VList [VStr "Monday"])])]]
  /\ find [(VStr "Chess Club", [("schedule_details", VDict [("days", VList [VStr "Monday"])])])]
          (Some [("schedule_details.start_time", VDict [("$gte", VStr "")])])
     = Ok [[("_id", VStr "Chess Club");
            ("schedule_details", VDict [("days", VList [VStr "Monday"])])]].
Proof. split; reflexivity. Qed.

(** C1, amended.  Let a record of the store lack [schedule_details.days],
    respectively [schedule_details.start_time], and let the clause be [$in]
    with a list on the former, respectively [$gte] with a non-empty string on
    the latter.  Checked against that record the clause raises nothing and
    answers [False], [find] with the clause alone on the record alone returns
    the empty list, and no result [find] returns for a query containing the
    clause is the document of that record. *)
Theorem find_skips_absent_path (data_store : store) (key : value) (record : dict)
    (clause : string * value) :
  In (key, record) data_store ->
  dict_wf record ->
  turns_down record clause ->
  _matches_query (with_id key record) [clause] = Ok false
  /\ find [(key, record)] (Some [clause]) = Ok []
  /\ forall query docs,
       In clause query ->
       find data_store (Some query) = Ok docs ->
       ~ In (with_id key record) docs.
Proof.
  intros _ Hwf Hdown.
  pose proof (turns_down_head key record clause [] Hwf Hdown) as Hhead.
  split; [exact Hhead | split].
  - cbn [find find_from]. rewrite Hhead. reflexivity.
  - intros query docs Hclause Hfind Hin.
    destruct query as [| first rest]; [destruct Hclause |].
    cbn [find] in Hfind.
    destruct (find_from_matches _ _ _ _ Hfind _ Hin) as [[] | Hok].
    exact (turns_down_anywhere key record clause _ Hwf Hdown Hclause Hok).
Qed.

Lemma find_skips_absent_path_witness :
  _matches_query (with_id (VStr "Study Hall") [("description", VStr "Quiet room")])
                 [("schedule_details.days", VDict [("$in", VList [VStr "Monday"])])]
  = Ok false
  /\ find [(VStr "Study Hall", [("description", VStr "Quiet room")])]
          (Some [("schedule_details.days", VDict [("$in", VList [VStr "Monday"])])])
     = Ok []
  /\ forall query docs,
       In ("schedule_details.days", VDict [("$in", VList [VStr "Monday"])]) query ->
       find [(VStr "Chess Club",
              [("schedule_details", VDict [("days", VList [VStr "Monday"])])]);
             (VStr "Study Hall", [("description", VStr "Quiet room")])]
            (Some query) = Ok docs ->
       ~ In (with_id (VStr "Study Hall") [("description", VStr "Quiet room")]) docs.
Proof.
  apply find_skips_absent_path.
  - simpl. auto.
  - repeat constructor. simpl. tauto.
  - apply turns_down_in with (wanted := [VStr "Monday"]).
    + reflexivity.
    + left. reflexivity.
Defined.

(** ** [aggregate] *)

Lemma compare_as_OT (a b : string) :
  String.compare a b = OrdersEx.String_as_OT.compare a b.
Proof. reflexivity. Qed.

Lemma str_lt_as_OT (a b : string) : str_lt a b <-> OrdersEx.String_as_OT.lt a b.
Proof.
  unfold str_lt, String.ltb, OrdersEx.String_as_OT.lt. rewrite compare_as_OT.
  destruct (OrdersEx.String_as_OT.compare a b); split; congruence.
Qed.

Lemma str_lt_trans (a b c : string) : str_lt a b -> str_lt b c -> str_lt a c.
Proof.
  rewrite !str_lt_as_OT.
  apply (StrictOrder_Transitive (R := OrdersEx.String_as_OT.lt)).
Qed.

Lemma str_lt_irrefl (a : string) : ~ str_lt a a.
Proof.
  rewrite str_lt_as_OT.
  apply (StrictOrder_Irreflexive (R := OrdersEx.String_as_OT.lt)).
Qed.

Lemma str_lt_connected (a b : string) :
  a <> b -> String.ltb a b = false -> str_lt b a.
Proof.
  unfold str_lt, String.ltb. intros Hne Hab.
  rewrite String.compare_antisym.
  destruct (String.compare a b) eqn:E; simpl; try reflexivity; try discriminate.
  apply String.compare_eq_iff in E. contradiction.
Qed.

Lemma existsb_py_eqb_str (d : string) (a : list string) :
  existsb (fun e => py_eqb e (VStr d)) (map VStr a) = true <-> In d a.
Proof.
  rewrite existsb_exists. split.
  - intros (e & Hin & Heq). apply in_map_iff in Hin. destruct Hin as (x & <- & Hx).
    simpl in Heq. apply String.eqb_eq in Heq. now subst.
  - intros Hin. exists (VStr d). split; [now apply in_map | apply py_eqb_refl].
Qed.

Lemma in_map_VStr (d : string) (a : list string) : In (VStr d) (map VStr a) <-> In d a.
Proof.
  rewrite in_map_iff. split.
  - intros (x & Heq & Hx). now inversion Heq; subst.
  - intros H. now exists d.
Qed.

Lemma set_update_strs (days : list string) :
  forall a, NoDup a ->
    exists a', set_update (map VStr days) (map VStr a) = Ok (map VStr a')
               /\ NoDup a'
               /\ forall d, In d a' <-> In d a \/ In d days.
Proof.
  induction days as [| x days IH]; intros a Hnd; simpl.
  - exists a. repeat split; auto; tauto.
  - unfold set_add. simpl.
    destruct (existsb (fun e => py_eqb e (VStr x)) (map VStr a)) eqn:E.
    + apply existsb_py_eqb_str in E.
      destruct (IH a Hnd) as (a' & Hup & Hnd' & Hin).
      exists a'. repeat split; auto.
      * rewrite Hin. intros [H | H]; auto.
      * rewrite Hin. intros [H | [<- | H]]; auto.
    + assert (Hx : ~ In x a).
      { intros C. apply existsb_py_eqb_str in C. congruence. }
      destruct (IH (a ++ [x])) as (a' & Hup & Hnd' & Hin).
      { apply NoDup_app; [exact Hnd | repeat constructor; simpl; tauto |].
        intros y Hy [<- | []]. contradiction. }
      exists a'. rewrite map_app in Hup. repeat split; auto.
      * rewrite Hin, in_app_iff. simpl. intros [[H | [<- | []]] | H]; auto.
      * rewrite Hin, in_app_iff. simpl. intros [H | [<- | H]]; auto.
Qed.

Lemma collect_days_strs (records : list dict) :
  Forall days_typed records ->
  forall a, NoDup a ->
    exists a', collect_days records (map VStr a) = Ok (map VStr a')
               /\ NoDup a'
               /\ forall d, In d a' <->
                            In d a \/ exists r, In r records /\ has_day r d.
Proof.
  induction 1 as [| r records Hr Hrest IH]; intros a Hnd; simpl.
  - exists a. repeat split; auto.
    intros [H | (r & [] & _)]. exact H.
  - destruct (dict_get "schedule_details" r) as [v |] eqn:Hsd.
    + destruct (Hr v Hsd) as (details & -> & Hdays).
      cbn [py_contains bind]. unfold dict_mem, amem. fold (dict_get "days" details).
      destruct (dict_get "days" details) as [w |] eqn:Hd; cbn [bind].
      * destruct (Hdays w eq_refl) as (days & ->).
        cbn [py_getitem]. rewrite Hd. cbn [bind py_iter].
        destruct (set_update_strs days a Hnd) as (a1 & Hup & Hnd1 & Hin1).
        rewrite Hup. cbn [bind].
        destruct (IH a1 Hnd1) as (a' & Hcol & Hnd' & Hin').
        exists a'. repeat split; auto.
        -- rewrite Hin', Hin1. intros [[H | H] | (r' & Hr' & Hday)]; auto.
           ++ right. exists r. split; [now left |].
              exists details, (map VStr days). repeat split; auto.
              now apply in_map_VStr.
           ++ right. exists r'. split; [now right | exact Hday].
        -- rewrite Hin', Hin1. intros [H | (r' & [<- | Hr'] & Hday)]; auto.
           ++ destruct Hday as (details' & days' & Hsd' & Hd' & Hin).
              rewrite Hsd in Hsd'. inversion Hsd'; subst details'.
              rewrite Hd in Hd'. inversion Hd'; subst days'.
              left. right. now apply in_map_VStr.
           ++ right. exists r'. auto.
      * destruct (IH a Hnd) as (a' & Hcol & Hnd' & Hin').
        exists a'. repeat split; auto.
        -- rewrite Hin'. intros [H | (r' & Hr' & Hday)]; auto.
           right. exists r'. auto.
        -- rewrite Hin'. intros [H | (r' & [<- | Hr'] & Hday)]; auto.
           ++ destruct Hday as (details' & days' & Hsd' & Hd' & _).
              rewrite Hsd in Hsd'. inversion Hsd'; subst details'. congruence.
           ++ right. exists r'. auto.
    + destruct (IH a Hnd) as (a' & Hcol & Hnd' & Hin').
      exists a'. repeat split; auto.
      * rewrite Hin'. intros [H | (r' & Hr' & Hday)]; auto.
        right. exists r'. auto.
      * rewrite Hin'. intros [H | (r' & [<- | Hr'] & Hday)]; auto.
        -- destruct Hday as (details' & days' & Hsd' & _). congruence.
        -- right. exists r'. auto.
Qed.

Lemma sorted_insert_strs (x : string) (l : list string) :
  StronglySorted str_lt l -> ~ In x l ->
  exists l', sorted_insert (VStr x) (map VStr l) = Ok (map VStr l')
             /\ StronglySorted str_lt l'
             /\ forall d, In d l' <-> d = x \/ In d l.
Proof.
  induction l as [| y l IH]; intros Hs Hx; simpl.
  - exists [x]. repeat split; auto.
    + repeat constructor.
    + intros [<- | []]. now left.
    + intros [-> | []]. now left.
  - inversion Hs as [| ? ? Hs' Hall]; subst.
    destruct (String.ltb y x) eqn:E.
    + destruct IH as (l' & Hins & Hs'' & Hin); [exact Hs' | simpl in Hx; tauto |].
      rewrite Hins. cbn [bind]. exists (y :: l'). repeat split.
      * constructor; [exact Hs'' |].
        apply Forall_forall. intros d Hd. apply Hin in Hd.
        destruct Hd as [-> | Hd]; [exact E |].
        rewrite Forall_forall in Hall. now apply Hall.
      * simpl. rewrite Hin. tauto.
      * simpl. rewrite Hin. tauto.
    + exists (x :: y :: l). repeat split.
      * assert (Hxy : str_lt x y).
        { apply str_lt_connected; [| exact E]. simpl in Hx. intros ->. tauto. }
        constructor; [exact Hs |].
        constructor; [exact Hxy |].
        eapply Forall_impl; [| exact Hall].
        intros d Hd. now apply (str_lt_trans x y d).
      * simpl. intros [<- | H]; auto.
      * simpl. intros [-> | H]; auto.
Qed.

Lemma sorted_strs (a : list string) :
  NoDup a ->
  exists l, sorted (map VStr a) = Ok (map VStr l)
            /\ StronglySorted str_lt l
            /\ forall d, In d l <-> In d a.
Proof.
  induction 1 as [| x a Hx Hnd IH]; simpl.
  - exists []. repeat split; auto. constructor.
  - destruct IH as (l & Hsort & Hs & Hin). rewrite Hsort. cbn [bind].
    destruct (sorted_insert_strs x l Hs) as (l' & Hins & Hs' & Hin').
    { now rewrite Hin. }
    exists l'. repeat split; auto.
    + rewrite Hin'. rewrite Hin. intros [-> | H]; auto.
    + rewrite Hin'. rewrite Hin. intros [<- | H]; auto.
Qed.

Lemma StronglySorted_str_lt_NoDup (l : list string) :
  StronglySorted str_lt l -> NoDup l.
Proof.
  induction 1 as [| x l Hs IH Hall]; constructor; [| exact IH].
  intros Hin. rewrite Forall_forall in Hall.
  exact (str_lt_irrefl x (Hall x Hin)).
Qed.

(** C6. On a store whose records have [schedule_details] as the seed data
    has it, [aggregate] on a pipeline whose first stage has
    ["$unwind": "$schedule_details.days"] returns [{"_id": day}] for the days
    of a list that is strictly increasing, hence sorted and without
    repetition, and holds exactly the days occurring in the
    [schedule_details.days] of some record.  On the empty pipeline, and on a
    pipeline whose first stage has no such [$unwind], it returns the empty
    list, on every store. *)
Theorem aggregate_unique_days (data_store : store) (pipeline : list value) :
  (Forall (fun e => days_typed (snd e)) data_store ->
   forall stage rest,
     pipeline = VDict stage :: rest ->
     dict_get "$unwind" stage = Some (VStr "$schedule_details.days") ->
     exists days,
       aggregate data_store pipeline = Ok (map (fun day => [("_id", VStr day)]) days)
       /\ StronglySorted str_lt days
       /\ NoDup days
       /\ forall day, In day days <->
                      exists key record, In (key, record) data_store
                                         /\ has_day record day)
  /\ (pipeline = [] -> aggregate data_store pipeline = Ok [])
  /\ (forall stage rest,
        pipeline = VDict stage :: rest ->
        dict_get "$unwind" stage <> Some (VStr "$schedule_details.days") ->
        aggregate data_store pipeline = Ok []).
Proof.
  split; [| split].
  - intros Htyped stage rest -> Hunwind.
    cbn [aggregate py_get]. rewrite Hunwind. cbn [bind].
    rewrite py_eqb_refl.
    destruct (collect_days_strs (map snd data_store)) with (a := @nil string)
      as (a & Hcol & Hnd & Hin).
    { apply Forall_map. exact Htyped. }
    { constructor. }
    simpl in Hcol. rewrite Hcol. cbn [bind].
    destruct (sorted_strs a Hnd) as (days & Hsort & Hs & Hdays).
    rewrite Hsort. cbn [bind]. rewrite map_map.
    exists days. split; [reflexivity |]. split; [exact Hs |].
    split; [now apply StronglySorted_str_lt_NoDup |].
    intros day. rewrite Hdays, Hin. split.
    + intros [[] | (r & Hr & Hday)].
      apply in_map_iff in Hr. destruct Hr as ([key record] & <- & He).
      now exists key, record.
    + intros (key & record & He & Hday). right. exists record.
      split; [| exact Hday]. apply in_map_iff. now exists (key, record).
  - intros ->. reflexivity.
  - intros stage rest -> Hunwind.
    cbn [aggregate py_get].
    destruct (dict_get "$unwind" stage) as [v |] eqn:E; cbn [bind]; [| reflexivity].
    destruct (py_eqb v (VStr "$schedule_details.days")) eqn:Heq; [| reflexivity].
    apply py_eqb_str in Heq. congruence.
Qed.

Lemma aggregate_unique_days_witness :
  (exists days,
      aggregate
        [(VStr "Chess Club",
          [("schedule_details", VDict [("days", VList [VStr "Monday"; VStr "Friday"])])]);
         (VStr "Debate Team",
          [("schedule_details", VDict [("days", VList [VStr "Friday"])])])]
        [VDict [("$unwind", VStr "$schedule_details.days")]]
      = Ok (map (fun day => [("_id", VStr day)]) days)
      /\ StronglySorted str_lt days
      /\ NoDup days
      /\ forall day,
           In day days <->
           exists key record,
             In (key, record)
                [(VStr "Chess Club",
                  [("schedule_details",
                    VDict [("days", VList [VStr "Monday"; VStr "Friday"])])]);
                 (VStr "Debate Team",
                  [("schedule_details", VDict [("days", VList [VStr "Friday"])])])]
             /\ has_day record day)
  /\ aggregate [(VStr "Chess Club", [])] [VDict [("$match", VDict [])]] = Ok [].
Proof.
  split.
  - apply (proj1 (aggregate_unique_days _ _))
      with (stage := [("$unwind", VStr "$schedule_details.days")]) (rest := []).
    + repeat constructor; intros v Hv; inversion Hv; subst;
        (eexists; split; [reflexivity |]); intros w Hw; inversion Hw; subst.
      * now exists ["Monday"; "Friday"].
      * now exists ["Friday"].
    + reflexivity.
    + reflexivity.
  - apply (proj2 (proj2 (aggregate_unique_days _ _))) with (stage := [("$match", VDict [])])
                                                          (rest := []).
    + reflexivity.
    + discriminate.
Defined.

(** The scenario of two records with days [Monday, Friday] and [Friday]. *)
Example aggregate_two_records :
  aggregate
    [(VStr "Chess Club",
      [("schedule_details", VDict [("days", VList [VStr "Monday"; VStr "Friday"])])]);
     (VStr "Debate Team",
      [("schedule_details", VDict [("days", VList [VStr "Friday"])])])]
    [VDict [("$unwind", VStr "$schedule_details.days")]]
  = Ok [[("_id", VStr "Friday")]; [("_id", VStr "Monday")]].
Proof. reflexivity. Qed.

(** The days of the seeded activities. *)
Example aggregate_seed_days :
  aggregate (map (fun entry => (VStr (fst entry), snd entry)) initial_activities)
            [VDict [("$unwind", VStr "$schedule_details.days")]]
  = Ok (map (fun day => [("_id", VStr day)])
            ["Friday"; "Monday"; "Saturday"; "Sunday"; "Thursday"; "Tuesday";
             "Wednesday"]).
Proof. vm_compute. reflexivity. Qed.

(** ** Scenarios *)

(** A record is inserted, a participant is pushed, and the record is read
    back. *)
Example chess_club_signup :
  exists s1 s2,
    insert_one [] [("_id", VStr "Chess Club");
                   ("participants", VList [VStr "a@x.edu"]);
                   ("max_participants", VInt 2)] = Ok (s1, true)
    /\ update_one s1 [("_id", VStr "Chess Club")]
                   [("$push", VDict [("participants", VStr "b@x.edu")])]
       = (s2, Ok {| modified_count := 1 |})
    /\ find_one s2 [("_id", VStr "Chess Club")]
       = Ok (Some [("_id", VStr "Chess Club");
                   ("participants", VList [VStr "a@x.edu"; VStr "b@x.edu"]);
                   ("max_participants", VInt 2)]).
Proof. do 2 eexists. repeat split. Qed.

(** Filters on the seeded activities. *)
Example seeded_monday_beginners :
  match find (map (fun entry => (VStr (fst entry), snd entry)) initial_activities)
             (Some [("schedule_details.days", VDict [("$in", VList [VStr "Monday"])]);
                    ("difficulty_level", VStr "Beginner")]) with
  | Ok docs => map (dict_get "_id") docs = [Some (VStr "Chess Club")]
  | Raise _ => False
  end.
Proof. vm_compute. reflexivity. Qed.

Example seeded_without_level :
  match find (map (fun entry => (VStr (fst entry), snd entry)) initial_activities)
             (Some [("difficulty_level", VDict [("$exists", VBool false)]);
                    ("schedule_details.start_time", VDict [("$gte", VStr "15:30")])]) with
  | Ok docs => map (dict_get "_id") docs
               = [Some (VStr "Soccer Team"); Some (VStr "Drama Club");
                  Some (VStr "Manga Maniacs")]
  | Raise _ => False
  end.
Proof. vm_compute. reflexivity. Qed.

(** Inputs of the wrong shape raise, as they do in Python. *)
Example find_one_unhashable_id :
  find_one [(VStr "Chess Club", [])] [("_id", VList [VStr "Chess Club"])]
  = Raise TypeError.
Proof. reflexivity. Qed.

Example push_onto_a_string :
  update_one [(VStr "Chess Club", [("description", VStr "Learn strategies")])]
             [("_id", VStr "Chess Club")]
             [("$push", VDict [("description", VStr "x")])]
  = ([(VStr "Chess Club", [("description", VStr "Learn strategies")])],
     Raise AttributeError).
Proof. reflexivity. Qed.

Example aggregate_days_of_mixed_types :
  aggregate [(VStr "Chess Club",
              [("schedule_details", VDict [("days", VList [VInt 1; VStr "Monday"])])])]
            [VDict [("$unwind", VStr "$schedule_details.days")]]
  = Raise TypeError.
Proof. reflexivity. Qed.

(** * Further properties of the collection *)

(** ** [insert_one] *)

(** Equality with a hashable value carries over to whatever that value is
    compared with. *)
Lemma py_eqb_through_hashable (k key key' : value) :
  py_hashable key = true -> py_eqb k key = true -> py_eqb k key' = py_eqb key key'.
Proof.
  destruct key as [| b | z | s | |]; try discriminate; intros _;
    destruct k as [| b0 | z0 | s0 | |]; simpl; try discriminate; intros Heq;
    destruct key' as [| b1 | z1 | s1 | |]; simpl; try reflexivity.
  - apply Bool.eqb_prop in Heq. now subst.
  - apply Bool.eqb_prop in Heq. now subst.
  - apply Z.eqb_eq in Heq. subst. now destruct b, b1.
  - apply Z.eqb_eq in Heq. now subst.
  - apply Z.eqb_eq in Heq. subst. now destruct b0, b1.
  - apply Z.eqb_eq in Heq. now subst.
  - apply Z.eqb_eq in Heq. now subst.
  - apply Z.eqb_eq in Heq. now subst.
  - apply String.eqb_eq in Heq. now subst.
Qed.

Lemma store_get_set_same (key : value) (record : dict) (data_store : store) :
  store_get key (store_set key record data_store) = Some record.
Proof. apply afind_aset_same. apply py_eqb_refl. Qed.

Lemma store_get_set_other (key key' : value) (record : dict) (data_store : store) :
  py_hashable key = true -> py_eqb key key' = false ->
  store_get key' (store_set key record data_store) = store_get key' data_store.
Proof.
  intros Hh Hne. apply afind_aset_other.
  - exact Hne.
  - intros k Hk. unfold key_is in *.
    now rewrite (py_eqb_through_hashable k key key' Hh Hk).
Qed.

Lemma dict_get_strip_id (f : string) (document : dict) :
  dict_get f (filter (fun kv => negb (String.eqb (fst kv) "_id")) document)
  = if String.eqb f "_id" then None else dict_get f document.
Proof.
  unfold dict_get. induction document as [| [k v] rest IH]; simpl.
  - now destruct (String.eqb f "_id").
  - destruct (String.eqb k "_id") eqn:Ek; simpl.
    + apply String.eqb_eq in Ek. subst k. rewrite IH.
      destruct (String.eqb f "_id"); reflexivity.
    + rewrite IH. destruct (String.eqb f k) eqn:Ef; [| reflexivity].
      apply String.eqb_eq in Ef. subst f. now rewrite Ek.
Qed.

Lemma dict_wf_filter {V : Type} (keep : string * V -> bool) (d : list (string * V)) :
  dict_wf d -> dict_wf (filter keep d).
Proof.
  unfold dict_wf. induction d as [| [k v] rest IH]; simpl; intros Hwf; [exact Hwf |].
  inversion Hwf as [| ? ? Hk Hrest]; subst.
  destruct (keep (k, v)); simpl; [| now apply IH].
  constructor; [| now apply IH].
  intros Hin. apply Hk. apply in_map_iff in Hin. destruct Hin as (e & He & Hin).
  apply filter_In in Hin. apply in_map_iff. exists e. tauto.
Qed.

Lemma insert_one_hashable (data_store : store) (document : dict) (key : value) :
  dict_get "_id" document = Some key -> py_hashable key = true ->
  insert_one data_store document
  = Ok (store_set key (filter (fun kv => negb (String.eqb (fst kv) "_id")) document)
                  data_store, true).
Proof.
  intros Hid Hh. unfold insert_one. cbn [py_getitem]. rewrite Hid. cbn [bind].
  now rewrite Hh.
Qed.

(** [insert_one] returns exactly when the document has an [_id] that can be
    hashed; a document without [_id] raises [KeyError] and one whose [_id] is
    a list or a dictionary raises [TypeError]. *)
Theorem insert_one_accepts (data_store : store) (document : dict) :
  ((exists r, insert_one data_store document = Ok r)
   <-> exists key, dict_get "_id" document = Some key /\ py_hashable key = true)
  /\ (dict_get "_id" document = None ->
      insert_one data_store document = Raise KeyError)
  /\ (forall key, dict_get "_id" document = Some key -> py_hashable key = false ->
                  insert_one data_store document = Raise TypeError).
Proof.
  unfold insert_one. cbn [py_getitem].
  destruct (dict_get "_id" document) as [key |] eqn:Hid; cbn [bind].
  - destruct (py_hashable key) eqn:Hh.
    + split; [| split].
      * split; [intros _; now exists key | intros _; eauto].
      * discriminate.
      * intros k Hk. inversion Hk; subst. congruence.
    + split; [| split].
      * split; [intros [r Hr]; discriminate |].
        intros (k & Hk & Hkh). inversion Hk; subst. congruence.
      * discriminate.
      * reflexivity.
  - split; [| split].
    + split; [intros [r Hr]; discriminate | intros (k & Hk & _); discriminate].
    + reflexivity.
    + discriminate.
Qed.

Lemma insert_one_accepts_witness :
  insert_one [] [("participants", VList [])] = Raise KeyError
  /\ insert_one [] [("_id", VList [VStr "Chess Club"])] = Raise TypeError.
Proof.
  split.
  - apply (proj1 (proj2 (insert_one_accepts [] [("participants", VList [])]))).
    reflexivity.
  - apply (proj2 (proj2 (insert_one_accepts [] [("_id", VList [VStr "Chess Club"])]))
             (VList [VStr "Chess Club"])); reflexivity.
Defined.

(** The record [insert_one] stores under the document's [_id] is the
    document without its [_id] entry: it has no field [_id], it agrees with
    the document on every other field, and its field names are distinct when
    the document's are. *)
Theorem insert_one_stores_fields (data_store : store) (document : dict) (key : value) :
  dict_get "_id" document = Some key -> py_hashable key = true ->
  exists store' record,
    insert_one data_store document = Ok (store', true)
    /\ store_get key store' = Some record
    /\ dict_get "_id" record = None
    /\ (forall f, f <> "_id" -> dict_get f record = dict_get f document)
    /\ (dict_wf document -> dict_wf record).
Proof.
  intros Hid Hh.
  exists (store_set key (filter (fun kv => negb (String.eqb (fst kv) "_id")) document)
                    data_store),
    (filter (fun kv => negb (String.eqb (fst kv) "_id")) document).
  split; [now apply insert_one_hashable |].
  split; [apply store_get_set_same |].
  split; [| split].
  - now rewrite dict_get_strip_id.
  - intros f Hf. rewrite dict_get_strip_id.
    apply String.eqb_neq in Hf. now rewrite Hf.
  - apply dict_wf_filter.
Qed.

Lemma insert_one_stores_fields_witness :
  exists store' record,
    insert_one [] [("_id", VStr "Chess Club"); ("max_participants", VInt 2)]
    = Ok (store', true)
    /\ store_get (VStr "Chess Club") store' = Some record
    /\ dict_get "_id" record = None
    /\ (forall f, f <> "_id" ->
                  dict_get f record
                  = dict_get f [("_id", VStr "Chess Club"); ("max_participants", VInt 2)])
    /\ (dict_wf [("_id", VStr "Chess Club"); ("max_participants", VInt 2)] ->
        dict_wf record).
Proof. apply insert_one_stores_fields; reflexivity. Defined.

(** Round trip: after [insert_one] of a document with distinct field names,
    [find_one] on the document's [_id] returns a document that holds, under
    every field name including [_id], what the inserted document held. *)
Theorem insert_one_then_find_one (data_store : store) (document : dict) (key : value) :
  dict_wf document ->
  dict_get "_id" document = Some key -> py_hashable key = true ->
  exists store' found,
    insert_one data_store document = Ok (store', true)
    /\ find_one store' [("_id", key)] = Ok (Some found)
    /\ forall f, dict_get f found = dict_get f document.
Proof.
  intros Hwf Hid Hh.
  set (record := filter (fun kv => negb (String.eqb (fst kv) "_id")) document).
  exists (store_set key record data_store), (with_id key record).
  split; [now apply insert_one_hashable |].
  split.
  - unfold find_one. change (dict_get "_id" [("_id", key)]) with (Some key).
    cbv beta iota. rewrite store_contains_hashable by exact Hh.
    now rewrite store_get_set_same.
  - intros f. rewrite with_id_get by (apply dict_wf_filter; exact Hwf).
    unfold record. rewrite dict_get_strip_id.
    destruct (String.eqb f "_id") eqn:Ef; [| now destruct (dict_get f document)].
    apply String.eqb_eq in Ef. subst f. now rewrite Hid.
Qed.

Lemma insert_one_then_find_one_witness :
  exists store' found,
    insert_one [(VStr "Art Club", [])]
               [("participants", VList [VStr "a@x.edu"]); ("_id", VStr "Chess Club")]
    = Ok (store', true)
    /\ find_one store' [("_id", VStr "Chess Club")] = Ok (Some found)
    /\ forall f,
         dict_get f found
         = dict_get f [("participants", VList [VStr "a@x.edu"]);
                       ("_id", VStr "Chess Club")].
Proof.
  apply insert_one_then_find_one; [| reflexivity | reflexivity].
  repeat constructor; simpl; intuition discriminate.
Defined.

Lemma aset_held {K V : Type} (p : K -> bool) (k0 : K) (old : V) (l : list (K * V)) :
  afind p l = Some old ->
  exists before k after,
    l = before ++ (k, old) :: after
    /\ afind p before = None
    /\ p k = true
    /\ forall v, aset p k0 v l = before ++ (k, v) :: after.
Proof.
  induction l as [| [k w] l IH]; simpl; [discriminate |].
  destruct (p k) eqn:E; intros H.
  - inversion H; subst w. exists [], k, l. simpl. rewrite E. auto.
  - destruct (IH H) as (before & k' & after & -> & Hb & Hk & Hset).
    exists ((k, w) :: before), k', after. simpl. rewrite E.
    repeat split; auto. intros v. now rewrite Hset.
Qed.

(** [insert_one] replaces or appends, and what it stores is the document
    without its [_id] entry.  Under a key the store does not hold, the store
    afterwards is the old one followed by the key with that record, and the
    count grows by one.  Under a key it holds, the store afterwards is the
    old one with that record in the place of the record the key led to: the
    old record is dropped whole, the key as first stored, every other entry,
    the order and the count stay. *)
Theorem insert_one_replaces_or_appends (data_store : store) (document : dict)
    (key : value) :
  dict_get "_id" document = Some key -> py_hashable key = true ->
  exists store',
    insert_one data_store document = Ok (store', true)
    /\ (store_get key data_store = None ->
        store'
        = data_store
          ++ [(key, filter (fun kv => negb (String.eqb (fst kv) "_id")) document)]
        /\ count_documents store' (VDict [])
           = S (count_documents data_store (VDict [])))
    /\ (forall old, store_get key data_store = Some old ->
        exists before held after,
          data_store = before ++ (held, old) :: after
          /\ store_get key before = None
          /\ key_is key held = true
          /\ store'
             = before
               ++ (held, filter (fun kv => negb (String.eqb (fst kv) "_id")) document)
               :: after
          /\ count_documents store' (VDict [])
             = count_documents data_store (VDict [])).
Proof.
  intros Hid Hh.
  exists (store_set key (filter (fun kv => negb (String.eqb (fst kv) "_id")) document)
                    data_store).
  split; [now apply insert_one_hashable |].
  split.
  - intros Habs. unfold store_set. rewrite aset_absent by exact Habs.
    split; [reflexivity |].
    unfold count_documents. rewrite length_app. simpl. apply Nat.add_1_r.
  - intros old Hold.
    destruct (aset_held (key_is key) key old data_store Hold)
      as (before & held & after & Hsplit & Hbefore & Hheld & Hset).
    exists before, held, after.
    split; [exact Hsplit |]. split; [exact Hbefore |]. split; [exact Hheld |].
    unfold store_set. rewrite Hset. split; [reflexivity |].
    unfold count_documents. rewrite Hsplit, !length_app. reflexivity.
Qed.

Lemma insert_one_replaces_or_appends_witness :
  exists store',
    insert_one [(VStr "Art Club", []);
                (VStr "Chess Club", [("max_participants", VInt 2)])]
               [("_id", VStr "Chess Club"); ("participants", VList [])]
    = Ok (store', true)
    /\ (store_get (VStr "Chess Club")
                  [(VStr "Art Club", []);
                   (VStr "Chess Club", [("max_participants", VInt 2)])] = None ->
        store'
        = [(VStr "Art Club", []);
           (VStr "Chess Club", [("max_participants", VInt 2)])]
          ++ [(VStr "Chess Club", [("participants", VList [])])]
        /\ count_documents store' (VDict [])
           = S (count_documents
                  [(VStr "Art Club", []);
                   (VStr "Chess Club", [("max_participants", VInt 2)])] (VDict [])))
    /\ (forall old,
        store_get (VStr "Chess Club")
                  [(VStr "Art Club", []);
                   (VStr "Chess Club", [("max_participants", VInt 2)])] = Some old ->
        exists before held after,
          [(VStr "Art Club", []);
           (VStr "Chess Club", [("max_participants", VInt 2)])]
          = before ++ (held, old) :: after
          /\ store_get (VStr "Chess Club") before = None
          /\ key_is (VStr "Chess Club") held = true
          /\ store' = before ++ (held, [("participants", VList [])]) :: after
          /\ count_documents store' (VDict [])
             = count_documents
                 [(VStr "Art Club", []);
                  (VStr "Chess Club", [("max_participants", VInt 2)])] (VDict [])).
Proof.
  exact (insert_one_replaces_or_appends
           [(VStr "Art Club", []);
            (VStr "Chess Club", [("max_participants", VInt 2)])]
           [("_id", VStr "Chess Club"); ("participants", VList [])]
           (VStr "Chess Club") eq_refl eq_refl).
Defined.

(** [insert_one] leaves the record under every other key as it was. *)
Theorem insert_one_other_keys (data_store : store) (document : dict)
    (key other : value) :
  dict_get "_id" document = Some key -> py_hashable key = true ->
  py_eqb key other = false ->
  exists store',
    insert_one data_store document = Ok (store', true)
    /\ store_get other store' = store_get other data_store.
Proof.
  intros Hid Hh Hne.
  exists (store_set key (filter (fun kv => negb (String.eqb (fst kv) "_id")) document)
                    data_store).
  split; [now apply insert_one_hashable |].
  now apply store_get_set_other.
Qed.

Lemma insert_one_other_keys_witness :
  exists store',
    insert_one [(VStr "Art Club", [("max_participants", VInt 15)])]
               [("_id", VStr "Chess Club")] = Ok (store', true)
    /\ store_get (VStr "Art Club") store'
       = store_get (VStr "Art Club") [(VStr "Art Club", [("max_participants", VInt 15)])].
Proof. apply (insert_one_other_keys _ _ (VStr "Chess Club")); reflexivity. Defined.

(** ** [update_one]: identity, count and the two operators *)

Lemma aupdate_keys {K V : Type} (p : K -> bool) (f : V -> V) (l : list (K * V)) :
  map fst (aupdate p f l) = map fst l.
Proof.
  induction l as [| [k w] l IH]; simpl; [reflexivity |].
  destruct (p k); simpl; [reflexivity | now rewrite IH].
Qed.

Lemma aupdate_twice {K V : Type} (p : K -> bool) (a b : V) (l : list (K * V)) :
  aupdate p (fun _ => b) (aupdate p (fun _ => a) l) = aupdate p (fun _ => b) l.
Proof.
  induction l as [| [k w] l IH]; simpl; [reflexivity |].
  destruct (p k) eqn:E; simpl; rewrite E; [reflexivity | now rewrite IH].
Qed.

Lemma aset_twice {K V : Type} (p : K -> bool) (k : K) (a b : V) (l : list (K * V)) :
  p k = true -> aset p k b (aset p k a l) = aset p k b l.
Proof.
  intros Hk. induction l as [| [k' w] l IH]; simpl.
  - now rewrite Hk.
  - destruct (p k') eqn:E; simpl; rewrite E; [reflexivity | now rewrite IH].
Qed.

Lemma aset_same {K V : Type} (p : K -> bool) (k : K) (v : V) (l : list (K * V)) :
  afind p l = Some v -> aset p k v l = l.
Proof.
  induction l as [| [k' w] l IH]; simpl; [discriminate |].
  destruct (p k'); intros H; [now inversion H | now rewrite IH].
Qed.

(** [update_one] once the query's [_id] is known to be a key of the store. *)
Lemma update_one_at (data_store : store) (query update : dict) (key : value)
    (record : dict) :
  dict_get "_id" query = Some key ->
  py_hashable key = true ->
  store_get key data_store = Some record ->
  update_one data_store query update =
  let (record1, pushed) := run_operator "$push" push_fields update record in
  match pushed with
  | Raise e => (store_write key record1 data_store, Raise e)
  | Ok _ =>
      let (record2, pulled) := run_operator "$pull" pull_fields update record1 in
      (store_write key record2 data_store,
       match pulled with
       | Ok _ => Ok {| modified_count := 1 |}
       | Raise e => Raise e
       end)
  end.
Proof.
  intros Hq Hh Hget. unfold update_one. rewrite Hq, Hh. cbn [negb].
  unfold store_get in Hget |- *. now rewrite Hget.
Qed.

Lemma list_remove_first (v x : value) (before after : list value) :
  existsb (fun e => py_eqb e v) before = false -> py_eqb x v = true ->
  list_remove v (before ++ x :: after) = Ok (before ++ after).
Proof.
  intros Hbefore Hx. induction before as [| e before IH]; simpl in *.
  - now rewrite Hx.
  - apply orb_false_iff in Hbefore. destruct Hbefore as [He Hrest].
    rewrite He, IH by exact Hrest. reflexivity.
Qed.

(** [update_one] never adds, drops or reorders identity keys, whatever the
    query and the update and whether or not it raises: the count of the store
    is the same after as before. *)
Theorem update_one_keeps_keys (data_store : store) (query update : dict) :
  map fst (fst (update_one data_store query update)) = map fst data_store
  /\ count_documents (fst (update_one data_store query update)) (VDict [])
     = count_documents data_store (VDict []).
Proof.
  assert (Hkeys : map fst (fst (update_one data_store query update))
                  = map fst data_store).
  { destruct (dict_get "_id" query) as [key |] eqn:Hq.
    - destruct (update_one_store data_store query update key Hq)
        as [-> | (record & record' & _ & ->)]; [reflexivity |].
      apply aupdate_keys.
    - unfold update_one. now rewrite Hq. }
  split; [exact Hkeys |].
  unfold count_documents. rewrite <- (length_map fst), Hkeys. apply length_map.
Qed.

(** The modified count tells whether the identity was found, not whether
    anything changed.  When the query's [_id] is hashable but no key of the
    store, [update_one] returns count 0 and the store as it was, without
    reading the update; when it is a list or a dictionary, the membership
    test raises [TypeError] and the store is as it was. *)
Theorem update_one_unknown_key (data_store : store) (query update : dict) (key : value) :
  dict_get "_id" query = Some key ->
  (py_hashable key = true -> store_get key data_store = None ->
   update_one data_store query update = (data_store, Ok {| modified_count := 0 |}))
  /\ (py_hashable key = false ->
      update_one data_store query update = (data_store, Raise TypeError)).
Proof.
  intros Hq. unfold update_one. rewrite Hq. split.
  - intros Hh Hget. rewrite Hh. cbn [negb]. now rewrite Hget.
  - intros Hh. now rewrite Hh.
Qed.

Lemma update_one_unknown_key_witness :
  update_one [(VStr "Chess Club", [])] [("_id", VStr "Art Club")]
             [("$push", VInt 3)]
  = ([(VStr "Chess Club", [])], Ok {| modified_count := 0 |})
  /\ update_one [(VStr "Chess Club", [])] [("_id", VDict [])] []
     = ([(VStr "Chess Club", [])], Raise TypeError).
Proof.
  split.
  - apply (proj1 (update_one_unknown_key _ [("_id", VStr "Art Club")] _
                    (VStr "Art Club") eq_refl)); reflexivity.
  - apply (proj2 (update_one_unknown_key _ [("_id", VDict [])] _
                    (VDict []) eq_refl)); reflexivity.
Defined.

(** [$push] onto a field that holds a list appends the value at the end:
    the elements already there keep their order and nothing is checked for
    duplicates. *)
Theorem update_one_push_appends (data_store : store) (query : dict) (key : value)
    (record : dict) (f : string) (l : list value) (v : value) :
  dict_get "_id" query = Some key ->
  py_hashable key = true ->
  store_get key data_store = Some record ->
  dict_get f record = Some (VList l) ->
  exists store' record',
    update_one data_store query [("$push", VDict [(f, v)])]
    = (store', Ok {| modified_count := 1 |})
    /\ store_get key store' = Some record'
    /\ dict_get f record' = Some (VList (l ++ [v])).
Proof.
  intros Hq Hh Hget Hf.
  exists (store_write key (dict_set f (VList (l ++ [v])) record) data_store),
    (dict_set f (VList (l ++ [v])) record).
  split; [| split].
  - rewrite (update_one_at _ _ _ key record) by assumption.
    unfold run_operator.
    change (dict_get "$push" [("$push", VDict [(f, v)])]) with (Some (VDict [(f, v)])).
    change (dict_get "$pull" [("$push", VDict [(f, v)])]) with (@None value).
    cbn [py_items push_fields].
    assert (Hmem : dict_mem f record = true).
    { unfold dict_mem, amem. unfold dict_get in Hf. now rewrite Hf. }
    rewrite Hmem. cbn [negb]. now rewrite Hf.
  - now apply (store_get_write _ record).
  - apply dict_get_set_same.
Qed.

Lemma update_one_push_appends_witness :
  exists store' record',
    update_one [(VStr "Chess Club", [("participants", VList [VStr "a@x.edu"])])]
               [("_id", VStr "Chess Club")]
               [("$push", VDict [("participants", VStr "a@x.edu")])]
    = (store', Ok {| modified_count := 1 |})
    /\ store_get (VStr "Chess Club") store' = Some record'
    /\ dict_get "participants" record'
       = Some (VList ([VStr "a@x.edu"] ++ [VStr "a@x.edu"])).
Proof.
  apply (update_one_push_appends _ _ (VStr "Chess Club")
           [("participants", VList [VStr "a@x.edu"])]); reflexivity.
Defined.

(** [$pull] removes one element only: the first one equal to the value.
    Later occurrences of the value stay in the list. *)
Theorem update_one_pull_first_only (data_store : store) (query : dict) (key : value)
    (record : dict) (f : string) (before after : list value) (x v : value) :
  dict_get "_id" query = Some key ->
  py_hashable key = true ->
  store_get key data_store = Some record ->
  dict_get f record = Some (VList (before ++ x :: after)) ->
  existsb (fun e => py_eqb e v) before = false ->
  py_eqb x v = true ->
  exists store' record',
    update_one data_store query [("$pull", VDict [(f, v)])]
    = (store', Ok {| modified_count := 1 |})
    /\ store_get key store' = Some record'
    /\ dict_get f record' = Some (VList (before ++ after)).
Proof.
  intros Hq Hh Hget Hf Hbefore Hx.
  exists (store_write key (dict_set f (VList (before ++ after)) record) data_store),
    (dict_set f (VList (before ++ after)) record).
  split; [| split].
  - rewrite (update_one_at _ _ _ key record) by assumption.
    unfold run_operator.
    change (dict_get "$push" [("$pull", VDict [(f, v)])]) with (@None value).
    change (dict_get "$pull" [("$pull", VDict [(f, v)])]) with (Some (VDict [(f, v)])).
    cbn [py_items pull_fields]. rewrite Hf. cbn [py_contains].
    rewrite existsb_app. cbn [existsb]. rewrite Hx, orb_true_r.
    now rewrite list_remove_first.
  - now apply (store_get_write _ record).
  - apply dict_get_set_same.
Qed.

Lemma update_one_pull_first_only_witness :
  exists store' record',
    update_one
      [(VStr "Chess Club",
        [("participants", VList ([VStr "b@x.edu"] ++ VStr "a@x.edu" :: [VStr "a@x.edu"]))])]
      [("_id", VStr "Chess Club")]
      [("$pull", VDict [("participants", VStr "a@x.edu")])]
    = (store', Ok {| modified_count := 1 |})
    /\ store_get (VStr "Chess Club") store' = Some record'
    /\ dict_get "participants" record'
       = Some (VList ([VStr "b@x.edu"] ++ [VStr "a@x.edu"])).
Proof.
  apply (update_one_pull_first_only _ _ (VStr "Chess Club")
           [("participants",
             VList ([VStr "b@x.edu"] ++ VStr "a@x.edu" :: [VStr "a@x.edu"]))]
           "participants" [VStr "b@x.edu"] [VStr "a@x.edu"] (VStr "a@x.edu"));
    reflexivity.
Defined.

(** Round trip: when the field holds a list in which the value does not
    occur, [$push] of the value followed by [$pull] of it gives back the very
    store the two calls started from. *)
Theorem update_one_push_pull_restores (data_store : store) (query : dict) (key : value)
    (record : dict) (f : string) (l : list value) (v : value) :
  dict_get "_id" query = Some key ->
  py_hashable key = true ->
  store_get key data_store = Some record ->
  dict_get f record = Some (VList l) ->
  existsb (fun e => py_eqb e v) l = false ->
  exists store1,
    update_one data_store query [("$push", VDict [(f, v)])]
    = (store1, Ok {| modified_count := 1 |})
    /\ update_one store1 query [("$pull", VDict [(f, v)])]
       = (data_store, Ok {| modified_count := 1 |}).
Proof.
  intros Hq Hh Hget Hf Hl.
  set (record1 := dict_set f (VList (l ++ [v])) record).
  exists (store_write key record1 data_store).
  assert (Hmem : dict_mem f record = true).
  { unfold dict_mem, amem. unfold dict_get in Hf. now rewrite Hf. }
  split.
  - rewrite (update_one_at _ _ _ key record) by assumption.
    unfold run_operator.
    change (dict_get "$push" [("$push", VDict [(f, v)])]) with (Some (VDict [(f, v)])).
    change (dict_get "$pull" [("$push", VDict [(f, v)])]) with (@None value).
    cbn [py_items push_fields]. rewrite Hmem. cbn [negb]. now rewrite Hf.
  - rewrite (update_one_at _ _ _ key record1);
      [| exact Hq | exact Hh | now apply (store_get_write _ record)].
    unfold run_operator.
    change (dict_get "$push" [("$pull", VDict [(f, v)])]) with (@None value).
    change (dict_get "$pull" [("$pull", VDict [(f, v)])]) with (Some (VDict [(f, v)])).
    cbn [py_items pull_fields]. unfold record1 at 1. rewrite dict_get_set_same.
    cbn [py_contains]. rewrite existsb_app. cbn [existsb].
    rewrite py_eqb_refl, orb_true_r.
    rewrite list_remove_first by (exact Hl || apply py_eqb_refl).
    rewrite app_nil_r. unfold record1, dict_set.
    rewrite aset_twice by apply String.eqb_refl.
    rewrite aset_same by exact Hf.
    unfold store_write. rewrite aupdate_twice.
    now rewrite aupdate_same by exact Hget.
Qed.

Lemma update_one_push_pull_restores_witness :
  exists store1,
    update_one [(VStr "Chess Club", [("participants", VList [VStr "a@x.edu"])])]
               [("_id", VStr "Chess Club")]
               [("$push", VDict [("participants", VStr "b@x.edu")])]
    = (store1, Ok {| modified_count := 1 |})
    /\ update_one store1 [("_id", VStr "Chess Club")]
                  [("$pull", VDict [("participants", VStr "b@x.edu")])]
       = ([(VStr "Chess Club", [("participants", VList [VStr "a@x.edu"])])],
          Ok {| modified_count := 1 |}).
Proof.
  apply (update_one_push_pull_restores _ _ (VStr "Chess Club")
           [("participants", VList [VStr "a@x.edu"])] "participants"
           [VStr "a@x.edu"]); reflexivity.
Defined.



(** [$pull] on a field that holds a string tests for a substring: a string
    value that is not a substring leaves the store as it was with count 1, a
    substring raises [AttributeError] ([str] has no [remove]), and a value
    that is not a string raises [TypeError]; the store is unchanged in all
    three cases. *)
Theorem update_one_pull_from_string (data_store : store) (query : dict) (key : value)
    (record : dict) (f : string) (s : string) (v : value) :
  dict_get "_id" query = Some key ->
  py_hashable key = true ->
  store_get key data_store = Some record ->
  dict_get f record = Some (VStr s) ->
  update_one data_store query [("$pull", VDict [(f, v)])]
  = (data_store,
     match v with
     | VStr t => if substring_of t s then Raise AttributeError
                 else Ok {| modified_count := 1 |}
     | _ => Raise TypeError
     end).
Proof.
  intros Hq Hh Hget Hf.
  rewrite (update_one_at _ _ _ key record) by assumption.
  unfold run_operator.
  change (dict_get "$push" [("$pull", VDict [(f, v)])]) with (@None value).
  change (dict_get "$pull" [("$pull", VDict [(f, v)])]) with (Some (VDict [(f, v)])).
  cbn [py_items pull_fields]. rewrite Hf. cbn [py_contains].
  destruct v as [| | | t | |]; cbv beta iota zeta;
    try (rewrite store_write_same by exact Hget; reflexivity).
  destruct (substring_of t s); cbv beta iota zeta;
    rewrite store_write_same by exact Hget; reflexivity.
Qed.

Lemma update_one_pull_from_string_witness :
  update_one [(VStr "Chess Club", [("description", VStr "Learn strategies")])]
             [("_id", VStr "Chess Club")]
             [("$pull", VDict [("description", VStr "strat")])]
  = ([(VStr "Chess Club", [("description", VStr "Learn strategies")])],
     Raise AttributeError).
Proof.
  apply (update_one_pull_from_string _ _ (VStr "Chess Club")
           [("description", VStr "Learn strategies")] "description"
           "Learn strategies" (VStr "strat")); reflexivity.
Defined.

Lemma run_operator_by_entry op loop (update update' : dict) (record : dict) :
  dict_get op update = dict_get op update' ->
  run_operator op loop update record = run_operator op loop update' record.
Proof. intros H. unfold run_operator. now rewrite H. Qed.

(** An update holding both operators acts as two calls in a row, [$push]
    first and [$pull] second, wherever the two entries stand in the update;
    when the [$push] part raises, the [$pull] part is not run. *)
Theorem update_one_push_before_pull (data_store : store) (query update : dict)
    (pushes pulls : value) :
  dict_get "$push" update = Some pushes ->
  dict_get "$pull" update = Some pulls ->
  update_one data_store query update
  = let (store1, pushed) := update_one data_store query [("$push", pushes)] in
    match pushed with
    | Ok _ => update_one store1 query [("$pull", pulls)]
    | Raise e => (store1, Raise e)
    end.
Proof.
  intros Hpush Hpull.
  destruct (dict_get "_id" query) as [key |] eqn:Hq;
    [| unfold update_one; now rewrite Hq].
  destruct (py_hashable key) eqn:Hh;
    [| unfold update_one; now rewrite Hq, Hh].
  destruct (store_get key data_store) as [record |] eqn:Hget.
  2: { unfold update_one. rewrite Hq, Hh. cbn [negb]. rewrite Hget.
       cbv beta iota zeta. now rewrite Hget. }
  rewrite (update_one_at _ _ update key record) by assumption.
  rewrite (update_one_at _ _ [("$push", pushes)] key record) by assumption.
  rewrite (run_operator_by_entry "$push" push_fields update [("$push", pushes)])
    by (rewrite Hpush; reflexivity).
  destruct (run_operator "$push" push_fields [("$push", pushes)] record)
    as [record1 [[] | e]]; [| reflexivity].
  assert (Hnone : run_operator "$pull" pull_fields [("$push", pushes)] record1
                  = (record1, Ok tt)) by reflexivity.
  rewrite Hnone.
  rewrite (update_one_at _ _ [("$pull", pulls)] key record1);
    [| exact Hq | exact Hh | now apply (store_get_write _ record)].
  assert (Hnone' : run_operator "$push" push_fields [("$pull", pulls)] record1
                   = (record1, Ok tt)) by reflexivity.
  rewrite Hnone'.
  rewrite (run_operator_by_entry "$pull" pull_fields update [("$pull", pulls)])
    by (rewrite Hpull; reflexivity).
  destruct (run_operator "$pull" pull_fields [("$pull", pulls)] record1)
    as [record2 pulled].
  unfold store_write. now rewrite aupdate_twice.
Qed.

Lemma update_one_push_before_pull_witness :
  update_one [(VStr "Chess Club", [])] [("_id", VStr "Chess Club")]
             [("$pull", VDict [("participants", VStr "a@x.edu")]);
              ("$push", VDict [("participants", VStr "a@x.edu")])]
  = ([(VStr "Chess Club", [("participants", VList [])])],
     Ok {| modified_count := 1 |}).
Proof.
  exact (update_one_push_before_pull
           [(VStr "Chess Club", [])] [("_id", VStr "Chess Club")]
           [("$pull", VDict [("participants", VStr "a@x.edu")]);
            ("$push", VDict [("participants", VStr "a@x.edu")])]
           (VDict [("participants", VStr "a@x.edu")])
           (VDict [("participants", VStr "a@x.edu")]) eq_refl eq_refl).
Defined.

(** ** [find] with a query *)

Lemma find_from_pred (query : dict) (P : value * dict -> bool) (items : store) :
  (forall e, In e items -> _matches_query (doc_of e) query = Ok (P e)) ->
  forall results,
    find_from items query results = Ok (results ++ map doc_of (filter P items)).
Proof.
  induction items as [| [key value] rest IH]; intros Hall results; simpl.
  - now rewrite app_nil_r.
  - pose proof (Hall (key, value) (or_introl eq_refl)) as Hhead.
    unfold doc_of in Hhead. simpl in Hhead. rewrite Hhead. cbn [bind].
    rewrite IH by (intros e He; apply Hall; now right).
    destruct (P (key, value)); [| reflexivity].
    unfold doc_of at 2. simpl. now rewrite <- app_assoc.
Qed.

Lemma find_from_returned (query : dict) (items : store) :
  forall results docs,
    find_from items query results = Ok docs ->
    docs = results ++ map doc_of (filter (matches query) items).
Proof.
  induction items as [| [key value] rest IH]; intros results docs Hfind;
    simpl in Hfind.
  - inversion Hfind. now rewrite app_nil_r.
  - unfold matches at 1, doc_of at 2. simpl.
    destruct (_matches_query (with_id key value) query) as [[|] | e];
      simpl in Hfind; [| | discriminate].
    + rewrite (IH _ _ Hfind). unfold doc_of at 2. simpl. now rewrite <- app_assoc.
    + exact (IH _ _ Hfind).
Qed.

Lemma find_from_raises (query : dict) (items : store) :
  forall results x,
    find_from items query results = Raise x ->
    exists e, In e items /\ _matches_query (doc_of e) query = Raise x.
Proof.
  induction items as [| [key value] rest IH]; intros results x Hfind;
    simpl in Hfind; [discriminate |].
  destruct (_matches_query (with_id key value) query) as [b | e'] eqn:Hm;
    simpl in Hfind.
  - destruct (IH _ _ Hfind) as (e & He & Hraise). exists e. split; [now right | exact Hraise].
  - inversion Hfind; subst. exists (key, value). split; [now left | exact Hm].
Qed.

Lemma find_nonempty (data_store : store) (clause : string * value) (rest : dict) :
  find data_store (Some (clause :: rest)) = find_from data_store (clause :: rest) [].
Proof. reflexivity. Qed.

Lemma find_pred (P : value * dict -> bool) (data_store : store)
    (clause : string * value) (rest : dict) :
  (forall e, In e data_store ->
             _matches_query (doc_of e) (clause :: rest) = Ok (P e)) ->
  find data_store (Some (clause :: rest)) = Ok (map doc_of (filter P data_store)).
Proof.
  intros Hall. rewrite find_nonempty.
  now rewrite (find_from_pred _ P) by exact Hall.
Qed.

(** [find] with a non-empty query is a filter.  When the query can be
    checked against every record without raising, [find] returns the
    documents of the records that pass, in the order of the store; whenever
    [find] returns, that is what it returns; and when it raises, checking
    some record raised that exception. *)
Theorem find_is_filter (data_store : store) (clause : string * value) (rest : dict) :
  ((forall e, In e data_store ->
              exists b, _matches_query (doc_of e) (clause :: rest) = Ok b) ->
   find data_store (Some (clause :: rest))
   = Ok (map doc_of (filter (matches (clause :: rest)) data_store)))
  /\ (forall docs,
        find data_store (Some (clause :: rest)) = Ok docs ->
        docs = map doc_of (filter (matches (clause :: rest)) data_store))
  /\ (forall x,
        find data_store (Some (clause :: rest)) = Raise x ->
        exists e, In e data_store
                  /\ _matches_query (doc_of e) (clause :: rest) = Raise x).
Proof.
  rewrite find_nonempty. split; [| split].
  - intros Hall. apply (find_from_pred _ (matches (clause :: rest))).
    intros e He. destruct (Hall e He) as [b Hb].
    unfold matches. rewrite Hb. now destruct b.
  - intros docs Hfind. exact (find_from_returned _ _ _ _ Hfind).
  - intros x Hfind. exact (find_from_raises _ _ _ _ Hfind).
Qed.

Lemma find_is_filter_witness :
  find [(VStr "Chess Club", [("difficulty_level", VStr "Beginner")]);
        (VStr "Art Club", [])]
       (Some [("difficulty_level", VStr "Beginner")])
  = Ok (map doc_of
          (filter (matches [("difficulty_level", VStr "Beginner")])
             [(VStr "Chess Club", [("difficulty_level", VStr "Beginner")]);
              (VStr "Art Club", [])])).
Proof.
  apply (proj1 (find_is_filter _ _ _)).
  intros e [<- | [<- | []]]; eexists; reflexivity.
Defined.

(** A query key outside the four recognised field paths filters nothing: a
    query made of such keys only is passed by every document, and [find]
    with it returns the whole store, like [find] with no query. *)
Theorem find_ignores_unrecognised (data_store : store) (query : dict) :
  (forall clause, In clause query -> recognised (fst clause) = false) ->
  (forall doc, _matches_query doc query = Ok true)
  /\ find data_store (Some query) = Ok (map doc_of data_store)
  /\ find data_store (Some query) = find data_store None.
Proof.
  intros Hkeys.
  assert (Hall : forall doc, _matches_query doc query = Ok true).
  { intros doc. induction query as [| [key condition] rest IH]; [reflexivity |].
    pose proof (Hkeys (key, condition) (or_introl eq_refl)) as Hkey.
    unfold recognised in Hkey. simpl in Hkey.
    repeat (apply orb_false_iff in Hkey; destruct Hkey as [Hkey ?]).
    cbn [_matches_query].
    repeat match goal with H : String.eqb _ _ = false |- _ => rewrite H; clear H end.
    apply IH. intros clause Hin. apply Hkeys. now right. }
  assert (Hfind : find data_store (Some query) = Ok (map doc_of data_store)).
  { destruct query as [| clause rest]; [reflexivity |].
    rewrite find_nonempty.
    rewrite (find_from_pred _ (fun _ => true)) by (intros e _; apply Hall).
    simpl. f_equal. f_equal. induction data_store as [| e l IHl]; simpl; congruence. }
  split; [exact Hall | split; [exact Hfind |]].
  rewrite Hfind. reflexivity.
Qed.

Lemma find_ignores_unrecognised_witness :
  (forall doc, _matches_query doc [("max_participants", VInt 2)] = Ok true)
  /\ find [(VStr "Chess Club", [("max_participants", VInt 12)])]
          (Some [("max_participants", VInt 2)])
     = Ok (map doc_of [(VStr "Chess Club", [("max_participants", VInt 12)])])
  /\ find [(VStr "Chess Club", [("max_participants", VInt 12)])]
          (Some [("max_participants", VInt 2)])
     = find [(VStr "Chess Club", [("max_participants", VInt 12)])] None.
Proof.
  apply find_ignores_unrecognised.
  intros clause [<- | []]. reflexivity.
Defined.

Lemma dict_mem_set_kept {V : Type} (k k' : string) (v : V) (d : list (string * V)) :
  dict_mem k d = true -> dict_mem k (dict_set k' v d) = true.
Proof.
  unfold dict_mem, amem, dict_set.
  induction d as [| [k0 v0] d IH]; simpl; [discriminate |].
  destruct (String.eqb k' k0) eqn:E'; simpl;
    destruct (String.eqb k k0) eqn:E; auto.
Qed.

Lemma with_id_has_id (key : value) (record : dict) :
  dict_mem "_id" (with_id key record) = true.
Proof.
  unfold with_id, dict_merge.
  assert (H : dict_mem "_id" [("_id", key)] = true) by reflexivity.
  revert H. generalize [("_id", key)].
  induction record as [| [k v] rest IH]; simpl; intros base H; [exact H |].
  apply IH. now apply dict_mem_set_kept.
Qed.

(** Every document [find] returns, for any query and any store, has an
    [_id] entry, and is the document of an entry of the store. *)
Theorem find_docs_have_id (data_store : store) (query : option dict)
    (docs : list dict) :
  find data_store query = Ok docs ->
  forall doc, In doc docs ->
    dict_mem "_id" doc = true
    /\ exists e, In e data_store /\ doc = doc_of e.
Proof.
  intros Hfind doc Hin.
  assert (Hsrc : exists e, In e data_store /\ doc = doc_of e).
  { destruct query as [[| clause rest] |].
    - inversion Hfind; subst. apply in_map_iff in Hin.
      destruct Hin as (e & <- & He). now exists e.
    - rewrite find_nonempty in Hfind.
      rewrite (find_from_returned _ _ _ _ Hfind) in Hin. simpl in Hin.
      apply in_map_iff in Hin. destruct Hin as (e & <- & He).
      apply filter_In in He. exists e. tauto.
    - inversion Hfind; subst. apply in_map_iff in Hin.
      destruct Hin as (e & <- & He). now exists e. }
  split; [| exact Hsrc].
  destruct Hsrc as (e & _ & ->). apply with_id_has_id.
Qed.

Lemma find_docs_have_id_witness :
  dict_mem "_id" [("_id", VStr "Chess Club"); ("max_participants", VInt 12)] = true
  /\ exists e, In e [(VStr "Chess Club", [("max_participants", VInt 12)])]
               /\ [("_id", VStr "Chess Club"); ("max_participants", VInt 12)]
                  = doc_of e.
Proof.
  apply (find_docs_have_id [(VStr "Chess Club", [("max_participants", VInt 12)])] None
           [[("_id", VStr "Chess Club"); ("max_participants", VInt 12)]]).
  - reflexivity.
  - now left.
Defined.

(** ** [_matches_query]: what the clauses mean *)

Lemma _matches_query_app (doc : dict) (q1 q2 : dict) :
  _matches_query doc (q1 ++ q2)
  = (b <- _matches_query doc q1 ;; if b then _matches_query doc q2 else Ok false).
Proof.
  induction q1 as [| [key condition] rest IH]; [reflexivity |].
  rewrite <- app_comm_cons. cbn [_matches_query]. rewrite IH.
  destruct (String.eqb key "schedule_details.days").
  { destruct (py_contains condition (VStr "$in")) as [[|] | ?]; cbn [bind];
      try reflexivity.
    destruct (py_get _ "days" _); cbn [bind]; try reflexivity.
    destruct (py_getitem condition "$in") as [wanted | ?]; cbn [bind];
      try reflexivity.
    destruct (py_iter wanted) as [days | ?]; cbn [bind]; try reflexivity.
    destruct (py_any_in days _) as [[|] | ?]; reflexivity. }
  destruct (String.eqb key "schedule_details.start_time").
  { destruct (py_contains condition (VStr "$gte")) as [[|] | ?]; cbn [bind];
      try reflexivity.
    destruct (py_get _ "start_time" _) as [doc_time | ?]; cbn [bind];
      try reflexivity.
    destruct (py_getitem condition "$gte") as [bound | ?]; cbn [bind];
      try reflexivity.
    destruct (py_lt doc_time bound) as [[|] | ?]; reflexivity. }
  destruct (String.eqb key "schedule_details.end_time").
  { destruct (py_contains condition (VStr "$lte")) as [[|] | ?]; cbn [bind];
      try reflexivity.
    destruct (py_get _ "end_time" _) as [doc_time | ?]; cbn [bind];
      try reflexivity.
    destruct (py_getitem condition "$lte") as [bound | ?]; cbn [bind];
      try reflexivity.
    destruct (py_gt doc_time bound) as [[|] | ?]; reflexivity. }
  destruct (String.eqb key "difficulty_level"); [| reflexivity].
  destruct condition as [| | | | | c];
    try (destruct (py_eqb (dict_get_or "difficulty_level" doc VNone) _);
         reflexivity).
  destruct (dict_mem "$exists" c).
  - destruct (py_getitem (VDict c) "$exists") as [wanted | ?]; cbn [bind];
      try reflexivity.
    destruct (py_eqb wanted _); reflexivity.
  - destruct (py_eqb (dict_get_or "difficulty_level" doc VNone) (VDict c));
      reflexivity.
Qed.

(** The clauses of a query are joined by "and", in either order: when two
    queries with no key in common can each be checked against a document
    without raising, the query that holds the clauses of both, one way round
    or the other, passes exactly when both do. *)
Theorem _matches_query_conjunction (doc : dict) (q1 q2 : dict) (b1 b2 : bool) :
  dict_wf (q1 ++ q2) ->
  _matches_query doc q1 = Ok b1 ->
  _matches_query doc q2 = Ok b2 ->
  dict_wf (q2 ++ q1)
  /\ _matches_query doc (q1 ++ q2) = Ok (b1 && b2)
  /\ _matches_query doc (q2 ++ q1) = Ok (b1 && b2).
Proof.
  intros Hwf H1 H2. split.
  - unfold dict_wf in *. rewrite map_app in *.
    exact (Permutation_NoDup (Permutation_app_comm _ _) Hwf).
  - rewrite !_matches_query_app, H1, H2. cbn [bind].
    now destruct b1, b2.
Qed.

Lemma _matches_query_conjunction_witness :
  dict_wf ([("schedule_details.days", VDict [("$in", VList [VStr "Monday"])])]
           ++ [("difficulty_level", VStr "Beginner")])
  /\ _matches_query
       [("difficulty_level", VStr "Beginner");
        ("schedule_details", VDict [("days", VList [VStr "Tuesday"])])]
       ([("difficulty_level", VStr "Beginner")]
        ++ [("schedule_details.days", VDict [("$in", VList [VStr "Monday"])])])
     = Ok (true && false)
  /\ _matches_query
       [("difficulty_level", VStr "Beginner");
        ("schedule_details", VDict [("days", VList [VStr "Tuesday"])])]
       ([("schedule_details.days", VDict [("$in", VList [VStr "Monday"])])]
        ++ [("difficulty_level", VStr "Beginner")])
     = Ok (true && false).
Proof.
  apply _matches_query_conjunction; [| reflexivity | reflexivity].
  repeat constructor; simpl; intuition discriminate.
Defined.

Lemma py_any_in_list (wanted days : list value) :
  py_any_in wanted (VList days)
  = Ok (existsb (fun w => existsb (fun d => py_eqb d w) days) wanted).
Proof.
  induction wanted as [| w rest IH]; simpl; [reflexivity |].
  destruct (existsb (fun d => py_eqb d w) days); [reflexivity | exact IH].
Qed.

Lemma doc_schedule_details (e : value * dict) :
  dict_wf (snd e) ->
  dict_get "schedule_details" (doc_of e) = dict_get "schedule_details" (snd e).
Proof.
  intros Hwf. unfold doc_of. rewrite with_id_get by exact Hwf.
  now destruct (dict_get "schedule_details" (snd e)).
Qed.

Lemma doc_days (e : value * dict) :
  dict_wf (snd e) -> days_shaped (snd e) ->
  py_get (dict_get_or "schedule_details" (doc_of e) (VDict [])) "days" (VList [])
  = Ok (VList (record_days (snd e))).
Proof.
  intros Hwf Hshape. unfold dict_get_or, record_days.
  rewrite doc_schedule_details by exact Hwf.
  destruct (dict_get "schedule_details" (snd e)) as [v |] eqn:Hsd; [| reflexivity].
  destruct (Hshape v Hsd) as (details & -> & Hdays). simpl.
  destruct (dict_get "days" details) as [w |] eqn:Hw; [| reflexivity].
  now destruct (Hdays w ltac:(first [exact Hw | reflexivity])) as (days & ->).
Qed.

Lemma doc_time (e : value * dict) (sub : string) :
  dict_wf (snd e) -> times_shaped (snd e) ->
  sub = "start_time" \/ sub = "end_time" ->
  py_get (dict_get_or "schedule_details" (doc_of e) (VDict [])) sub (VStr "")
  = Ok (VStr (record_time sub (snd e))).
Proof.
  intros Hwf Hshape Hsub. unfold dict_get_or, record_time.
  rewrite doc_schedule_details by exact Hwf.
  destruct (dict_get "schedule_details" (snd e)) as [v |] eqn:Hsd; [| reflexivity].
  destruct (Hshape v Hsd) as (details & -> & Htimes). simpl.
  destruct (dict_get sub details) as [w |] eqn:Hw; [| reflexivity].
  now destruct (Htimes sub w ltac:(first [exact Hw | reflexivity]) Hsub) as (t & ->).
Qed.

Lemma leb_is_not_ltb (a t : string) : String.leb a t = negb (String.ltb t a).
Proof.
  unfold String.leb, String.ltb. rewrite String.compare_antisym.
  now destruct (String.compare t a).
Qed.

(** [find] with [{"schedule_details.days": {"$in": wanted}}], [wanted] a
    list, returns the documents of exactly the records whose
    [schedule_details.days] has an element equal to an element of [wanted],
    in the order of the store; a record without days is not returned, and an
    empty [wanted] returns nothing. *)
Theorem find_by_days (data_store : store) (wanted : list value) :
  (forall e, In e data_store -> dict_wf (snd e) /\ days_shaped (snd e)) ->
  find data_store (Some [("schedule_details.days", VDict [("$in", VList wanted)])])
  = Ok (map doc_of
          (filter (fun e =>
                     existsb (fun w => existsb (fun d => py_eqb d w)
                                               (record_days (snd e))) wanted)
                  data_store)).
Proof.
  intros Hshape. apply find_pred.
  intros e He. destruct (Hshape e He) as [Hwf Hdays].
  cbn [_matches_query String.eqb Ascii.eqb Bool.eqb].
  change (py_contains (VDict [("$in", VList wanted)]) (VStr "$in")) with (Ok true).
  cbn [bind]. rewrite doc_days by assumption.
  change (py_getitem (VDict [("$in", VList wanted)]) "$in") with (Ok (VList wanted)).
  cbn [bind py_iter]. rewrite py_any_in_list. cbn [bind].
  now destruct (existsb _ wanted).
Qed.

Lemma find_by_days_witness :
  find [(VStr "Chess Club",
         [("schedule_details", VDict [("days", VList [VStr "Monday"; VStr "Friday"])])]);
        (VStr "Study Hall", [])]
       (Some [("schedule_details.days", VDict [("$in", VList [VStr "Friday"])])])
  = Ok [[("_id", VStr "Chess Club");
         ("schedule_details", VDict [("days", VList [VStr "Monday"; VStr "Friday"])])]].
Proof.
  apply (find_by_days
           [(VStr "Chess Club",
             [("schedule_details",
               VDict [("days", VList [VStr "Monday"; VStr "Friday"])])]);
            (VStr "Study Hall", [])] [VStr "Friday"]).
  intros e [<- | [<- | []]]; (split; [repeat constructor; simpl; tauto |]);
    intros v Hv; inversion Hv; subst.
  exists [("days", VList [VStr "Monday"; VStr "Friday"])]. split; [reflexivity |].
  intros w Hw. inversion Hw; subst. now eexists.
Defined.

(** [find] with a time window, [$gte] on [schedule_details.start_time] and
    [$lte] on [schedule_details.end_time], both bounds strings, returns the
    documents of exactly the records whose start time is at or after the
    lower bound and whose end time is at or before the upper bound, as
    strings compared in lexicographic order; a missing time counts as the
    empty string. *)
Theorem find_by_time_window (data_store : store) (earliest latest : string) :
  (forall e, In e data_store -> dict_wf (snd e) /\ times_shaped (snd e)) ->
  find data_store
       (Some [("schedule_details.start_time", VDict [("$gte", VStr earliest)]);
              ("schedule_details.end_time", VDict [("$lte", VStr latest)])])
  = Ok (map doc_of
          (filter (fun e =>
                     String.leb earliest (record_time "start_time" (snd e))
                     && String.leb (record_time "end_time" (snd e)) latest)
                  data_store)).
Proof.
  intros Hshape. apply find_pred.
  intros e He. destruct (Hshape e He) as [Hwf Htimes].
  cbn [_matches_query String.eqb Ascii.eqb Bool.eqb].
  change (py_contains (VDict [("$gte", VStr earliest)]) (VStr "$gte")) with (Ok true).
  change (py_contains (VDict [("$lte", VStr latest)]) (VStr "$lte")) with (Ok true).
  cbn [bind]. rewrite !doc_time by auto.
  change (py_getitem (VDict [("$gte", VStr earliest)]) "$gte") with (Ok (VStr earliest)).
  change (py_getitem (VDict [("$lte", VStr latest)]) "$lte") with (Ok (VStr latest)).
  cbn [bind py_lt py_gt]. rewrite !leb_is_not_ltb.
  destruct (String.ltb (record_time "start_time" (snd e)) earliest); [reflexivity |].
  now destruct (String.ltb latest (record_time "end_time" (snd e))).
Qed.

Lemma find_by_time_window_witness :
  find [(VStr "Morning Fitness",
         [("schedule_details",
           VDict [("start_time", VStr "06:30"); ("end_time", VStr "07:45")])]);
        (VStr "Chess Club",
         [("schedule_details",
           VDict [("start_time", VStr "15:15"); ("end_time", VStr "16:45")])])]
       (Some [("schedule_details.start_time", VDict [("$gte", VStr "15:00")]);
              ("schedule_details.end_time", VDict [("$lte", VStr "17:00")])])
  = Ok [[("_id", VStr "Chess Club");
         ("schedule_details",
          VDict [("start_time", VStr "15:15"); ("end_time", VStr "16:45")])]].
Proof.
  apply (find_by_time_window
           [(VStr "Morning Fitness",
             [("schedule_details",
               VDict [("start_time", VStr "06:30"); ("end_time", VStr "07:45")])]);
            (VStr "Chess Club",
             [("schedule_details",
               VDict [("start_time", VStr "15:15"); ("end_time", VStr "16:45")])])]
           "15:00" "17:00").
  intros e [<- | [<- | []]]; (split; [repeat constructor; simpl; tauto |]);
    intros v Hv; inversion Hv; subst; eexists; (split; [reflexivity |]);
    intros sub w Hw [-> | ->]; inversion Hw; subst; now eexists.
Defined.

Lemma doc_level (e : value * dict) :
  dict_wf (snd e) ->
  dict_get "difficulty_level" (doc_of e) = dict_get "difficulty_level" (snd e).
Proof.
  intros Hwf. unfold doc_of. rewrite with_id_get by exact Hwf.
  now destruct (dict_get "difficulty_level" (snd e)).
Qed.

(** [find] with [{"difficulty_level": {"$exists": b}}], [b] a boolean,
    returns the documents of exactly the records for which "has a
    [difficulty_level] that is not [None]" is [b]. *)
Theorem find_by_level_exists (data_store : store) (b : bool) :
  (forall e, In e data_store -> dict_wf (snd e)) ->
  find data_store (Some [("difficulty_level", VDict [("$exists", VBool b)])])
  = Ok (map doc_of
          (filter (fun e => Bool.eqb b (has_level (snd e))) data_store)).
Proof.
  intros Hwf. apply find_pred.
  intros e He.
  cbn [_matches_query String.eqb Ascii.eqb Bool.eqb].
  change (dict_mem "$exists" [("$exists", VBool b)]) with true. cbv beta iota.
  change (py_getitem (VDict [("$exists", VBool b)]) "$exists") with (Ok (VBool b)).
  cbn [bind]. rewrite doc_level by (apply Hwf; exact He).
  unfold has_level.
  destruct (dict_get "difficulty_level" (snd e)) as [[| | | | |] |], b; reflexivity.
Qed.

Lemma find_by_level_exists_witness :
  find [(VStr "Chess Club", [("difficulty_level", VStr "Beginner")]);
        (VStr "Soccer Team", [])]
       (Some [("difficulty_level", VDict [("$exists", VBool false)])])
  = Ok [[("_id", VStr "Soccer Team")]].
Proof.
  apply (find_by_level_exists
           [(VStr "Chess Club", [("difficulty_level", VStr "Beginner")]);
            (VStr "Soccer Team", [])] false).
  intros e [<- | [<- | []]]; repeat constructor; simpl; tauto.
Defined.

(** [find] with [{"difficulty_level": v}], [v] not an operator object,
    returns the documents of exactly the records whose [difficulty_level]
    equals [v], a record without the field counting as one that holds
    [None]: with [v] equal to [None] the records without a level come
    back. *)
Theorem find_by_level_value (data_store : store) (v : value) :
  (forall e, In e data_store -> dict_wf (snd e)) ->
  (forall c, v = VDict c -> dict_mem "$exists" c = false) ->
  find data_store (Some [("difficulty_level", v)])
  = Ok (map doc_of
          (filter (fun e => py_eqb (dict_get_or "difficulty_level" (snd e) VNone) v)
                  data_store)).
Proof.
  intros Hwf Hv. apply find_pred.
  intros e He.
  cbn [_matches_query String.eqb Ascii.eqb Bool.eqb].
  assert (Hlevel : dict_get_or "difficulty_level" (doc_of e) VNone
                   = dict_get_or "difficulty_level" (snd e) VNone).
  { unfold dict_get_or. now rewrite doc_level by (apply Hwf; exact He). }
  rewrite Hlevel.
  destruct v as [| | | | | c];
    try (now destruct (py_eqb (dict_get_or "difficulty_level" (snd e) VNone) _)).
  rewrite (Hv c eq_refl).
  now destruct (py_eqb (dict_get_or "difficulty_level" (snd e) VNone) (VDict c)).
Qed.

Lemma find_by_level_value_witness :
  find [(VStr "Chess Club", [("difficulty_level", VStr "Beginner")]);
        (VStr "Soccer Team", [])]
       (Some [("difficulty_level", VNone)])
  = Ok [[("_id", VStr "Soccer Team")]].
Proof.
  apply (find_by_level_value
           [(VStr "Chess Club", [("difficulty_level", VStr "Beginner")]);
            (VStr "Soccer Team", [])] VNone).
  - intros e [<- | [<- | []]]; repeat constructor; simpl; tauto.
  - discriminate.
Defined.

(** ** [aggregate] and the order of the store *)

Lemma StronglySorted_str_lt_unique (l1 l2 : list string) :
  StronglySorted str_lt l1 -> StronglySorted str_lt l2 ->
  (forall d, In d l1 <-> In d l2) -> l1 = l2.
Proof.
  intros H1. revert l2. induction H1 as [| x l1 Hs1 IH Hall1]; intros l2 H2 Hsame.
  - destruct l2 as [| y l2]; [reflexivity |].
    destruct (proj2 (Hsame y) (or_introl eq_refl)).
  - destruct H2 as [| y l2 Hs2 Hall2].
    + destruct (proj1 (Hsame x) (or_introl eq_refl)).
    + rewrite Forall_forall in Hall1, Hall2.
      assert (Hxy : x = y).
      { destruct (proj1 (Hsame x) (or_introl eq_refl)) as [Hy | Hy]; [now symmetry |].
        destruct (proj2 (Hsame y) (or_introl eq_refl)) as [Hx | Hx]; [exact Hx |].
        exfalso. apply (str_lt_irrefl x).
        apply (str_lt_trans x y x); [now apply Hall1 | now apply Hall2]. }
      subst y. f_equal. apply IH; [exact Hs2 |].
      intros d. split; intros Hd.
      * destruct (proj1 (Hsame d) (or_intror Hd)) as [<- | Hd2]; [| exact Hd2].
        exfalso. exact (str_lt_irrefl x (Hall1 x Hd)).
      * destruct (proj2 (Hsame d) (or_intror Hd)) as [<- | Hd1]; [| exact Hd1].
        exfalso. exact (str_lt_irrefl x (Hall2 x Hd)).
Qed.

Lemma aggregate_days (data_store : store) :
  Forall (fun e => days_typed (snd e)) data_store ->
  exists days,
    (all_days <- collect_days (map snd data_store) [] ;;
     sorted_days <- sorted all_days ;;
     Ok (map (fun day => [("_id", day)]) sorted_days))
    = Ok (map (fun day => [("_id", VStr day)]) days)
    /\ StronglySorted str_lt days
    /\ forall day, In day days <->
                   exists r, In r (map snd data_store) /\ has_day r day.
Proof.
  intros Htyped.
  destruct (collect_days_strs (map snd data_store)) with (a := @nil string)
    as (a & Hcol & Hnd & Hin).
  { apply Forall_map. exact Htyped. }
  { constructor. }
  simpl in Hcol. rewrite Hcol. cbn [bind].
  destruct (sorted_strs a Hnd) as (days & Hsort & Hs & Hdays).
  rewrite Hsort. cbn [bind]. rewrite map_map.
  exists days. split; [reflexivity | split; [exact Hs |]].
  intros day. rewrite Hdays, Hin. split; [intros [[] | H]; exact H | now right].
Qed.

(** The result of [aggregate] does not depend on the order of the store, nor
    on how often a record occurs: two stores with the same records, their
    [schedule_details] shaped as in the seed data, give the same result for
    every pipeline. *)
Theorem aggregate_order_independent (store1 store2 : store) (pipeline : list value) :
  (forall r, In r (map snd store1) <-> In r (map snd store2)) ->
  Forall (fun e => days_typed (snd e)) store1 ->
  aggregate store1 pipeline = aggregate store2 pipeline.
Proof.
  intros Hsame Htyped1.
  assert (Htyped2 : Forall (fun e => days_typed (snd e)) store2).
  { rewrite Forall_forall in Htyped1 |- *. intros e He.
    assert (Hr : In (snd e) (map snd store1)) by (apply Hsame; now apply in_map).
    apply in_map_iff in Hr. destruct Hr as (e1 & Heq & He1).
    rewrite <- Heq. now apply Htyped1. }
  unfold aggregate. destruct pipeline as [| stage rest]; [reflexivity |].
  destruct (py_get stage "$unwind" VNone) as [unwind | x]; cbn [bind]; [| reflexivity].
  destruct (py_eqb unwind (VStr "$schedule_details.days")); [| reflexivity].
  destruct (aggregate_days store1 Htyped1) as (days1 & -> & Hs1 & Hin1).
  destruct (aggregate_days store2 Htyped2) as (days2 & -> & Hs2 & Hin2).
  f_equal. f_equal. apply StronglySorted_str_lt_unique; [exact Hs1 | exact Hs2 |].
  intros day. rewrite Hin1, Hin2.
  split; intros (r & Hr & Hday); exists r; (split; [now apply Hsame | exact Hday]).
Qed.

Lemma aggregate_order_independent_witness :
  aggregate
    [(VStr "Chess Club",
      [("schedule_details", VDict [("days", VList [VStr "Monday"; VStr "Friday"])])]);
     (VStr "Debate Team",
      [("schedule_details", VDict [("days", VList [VStr "Friday"])])])]
    [VDict [("$unwind", VStr "$schedule_details.days")]]
  = aggregate
      [(VStr "Debate Team",
        [("schedule_details", VDict [("days", VList [VStr "Friday"])])]);
       (VStr "Chess Club",
        [("schedule_details", VDict [("days", VList [VStr "Monday"; VStr "Friday"])])])]
      [VDict [("$unwind", VStr "$schedule_details.days")]].
Proof.
  apply aggregate_order_independent.
  - intros r. simpl. tauto.
  - repeat constructor; intros v Hv; inversion Hv; subst;
      (eexists; split; [reflexivity |]); intros w Hw; inversion Hw; subst.
    + now exists ["Monday"; "Friday"].
    + now exists ["Friday"].
Defined.

(** ** [init_database] and stores that are not empty *)

(** [init_database] looks at each store on its own and only at whether it is
    empty.  A store that holds anything is left exactly as it is, even when
    it lacks seed records.  An empty activities store is filled with the
    activities of the seed table, each under its name and with its details,
    in the order of the table; an empty teachers store with the seed
    teachers, each under its username, in their order.  So no record a store
    held before the call is missing after it, and neither store is empty
    after it. *)
Theorem init_database_keeps_records (hash_password : string -> string) (db : database) :
  exists db',
    init_database hash_password db = Ok db'
    /\ (activities_db db <> [] -> activities_db db' = activities_db db)
    /\ (teachers_db db <> [] -> teachers_db db' = teachers_db db)
    /\ (activities_db db = [] ->
        activities_db db'
        = map (fun entry => (VStr (fst entry), snd entry)) initial_activities)
    /\ (teachers_db db = [] ->
        teachers_db db'
        = map (fun teacher => (dict_get_or "username" teacher VNone, teacher))
              (initial_teachers hash_password))
    /\ (forall e, In e (activities_db db) -> In e (activities_db db'))
    /\ (forall e, In e (teachers_db db) -> In e (teachers_db db'))
    /\ activities_db db' <> []
    /\ teachers_db db' <> [].
Proof.
  destruct db as [activities teachers]. unfold init_database.
  cbn [activities_db teachers_db count_documents].
  destruct activities as [| a activities]; destruct teachers as [| t teachers];
    cbn [List.length Nat.eqb];
    rewrite ?seed_activities_empty, ?seed_teachers_empty; cbn [bind];
    eexists; (split; [reflexivity |]); cbn [activities_db teachers_db];
    (split; [intros H; try reflexivity; now contradiction H |]);
    (split; [intros H; try reflexivity; now contradiction H |]);
    (split; [intros H; try reflexivity; discriminate H |]);
    (split; [intros H; try reflexivity; discriminate H |]);
    (split; [intros e He; try exact He; now destruct He |]);
    (split; [intros e He; try exact He; now destruct He |]);
    split; discriminate.
Qed.

Lemma init_database_keeps_records_witness :
  exists db',
    init_database (fun password => password)
      {| activities_db := [(VStr "Chess Club", [])]; teachers_db := [] |} = Ok db'
    /\ activities_db db' = [(VStr "Chess Club", [])]
    /\ teachers_db db'
       = map (fun teacher => (dict_get_or "username" teacher VNone, teacher))
             (initial_teachers (fun password => password)).
Proof.
  destruct (init_database_keeps_records (fun password => password)
              {| activities_db := [(VStr "Chess Club", [])]; teachers_db := [] |})
    as (db' & Hinit & Hact & _ & _ & Hteachers & _).
  exists db'. split; [exact Hinit |]. split.
  - apply Hact. discriminate.
  - apply Hteachers. reflexivity.
Defined.

Lemma strip_id_absent (details : dict) :
  dict_get "_id" details = None ->
  filter (fun kv => negb (String.eqb (fst kv) "_id")) details = details.
Proof.
  unfold dict_get. induction details as [| [k v] rest IH]; [reflexivity |].
  cbn [afind filter fst]. rewrite (String.eqb_sym k "_id").
  destruct (String.eqb "_id" k); [discriminate |].
  cbn [negb]. intros H. now rewrite IH.
Qed.

Lemma store_get_app_other (name name' : string) (details : dict) (data_store : store) :
  name' <> name ->
  store_get (VStr name') data_store = None ->
  store_get (VStr name') (data_store ++ [(VStr name, details)]) = None.
Proof.
  intros Hne. unfold store_get.
  induction data_store as [| [k r] rest IH]; simpl.
  - intros _. unfold key_is. cbn [py_eqb].
    apply String.eqb_neq in Hne. rewrite String.eqb_sym in Hne.
    now rewrite Hne.
  - destruct (key_is (VStr name') k); [discriminate | exact IH].
Qed.

Lemma seed_activities_append (items : list (string * dict)) :
  NoDup (map fst items) ->
  (forall entry, In entry items ->
                 dict_wf (snd entry) /\ dict_get "_id" (snd entry) = None) ->
  forall data_store,
    (forall name, In name (map fst items) -> store_get (VStr name) data_store = None) ->
    seed_activities items data_store
    = Ok (data_store ++ map (fun entry => (VStr (fst entry), snd entry)) items).
Proof.
  induction items as [| [name details] rest IH]; intros Hnd Hplain data_store Hfresh;
    simpl.
  - now rewrite app_nil_r.
  - inversion Hnd as [| ? ? Hname Hnd']; subst.
    destruct (Hplain (name, details) (or_introl eq_refl)) as [Hwf Hid].
    simpl in Hwf, Hid.
    fold (with_id (VStr name) details).
    rewrite with_id_plain by assumption.
    rewrite (insert_one_hashable _ _ (VStr name)) by reflexivity.
    cbn [bind fst filter String.eqb Ascii.eqb Bool.eqb negb].
    unfold store_set. rewrite strip_id_absent by exact Hid.
    rewrite aset_absent by (apply (Hfresh name); now left).
    rewrite IH.
    + now rewrite <- app_assoc.
    + exact Hnd'.
    + intros entry He. apply Hplain. now right.
    + intros name' Hin. apply store_get_app_other.
      * intros ->. contradiction.
      * apply Hfresh. now right.
Qed.

(** The seeding loop on an empty store, for any seed table whose activity
    names are distinct and whose details have distinct field names and no
    [_id]: it raises nothing and stores every activity under its name, with
    its details as they are, in the order of the table. *)
Theorem seed_activities_stores_table (items : list (string * dict)) :
  NoDup (map fst items) ->
  (forall entry, In entry items ->
                 dict_wf (snd entry) /\ dict_get "_id" (snd entry) = None) ->
  seed_activities items []
  = Ok (map (fun entry => (VStr (fst entry), snd entry)) items).
Proof.
  intros Hnd Hplain.
  now rewrite (seed_activities_append items Hnd Hplain []) by reflexivity.
Qed.

Lemma seed_activities_stores_table_witness :
  seed_activities
    [("Chess Club", [("max_participants", VInt 12)]);
     ("Art Club", [("max_participants", VInt 15)])] []
  = Ok [(VStr "Chess Club", [("max_participants", VInt 12)]);
        (VStr "Art Club", [("max_participants", VInt 15)])].
Proof.
  apply (seed_activities_stores_table
           [("Chess Club", [("max_participants", VInt 12)]);
            ("Art Club", [("max_participants", VInt 15)])]).
  - repeat constructor; simpl; intuition discriminate.
  - intros entry [<- | [<- | []]]; split; try reflexivity;
      repeat constructor; simpl; tauto.
Defined.

(** * [update_one] and shared lists *)

(** ** The heap *)








(** ** The two loops, object by object *)






















(** ** What a call leaves as it was *)


(** On a store in which no list is shared the two embeddings of
    [update_one] agree: the store of objects after the call reads as the
    store of values after the call. *)
Example update_one_embeddings_agree :
  let st := {| Ref.data_store := [(Ref.RStr "A", 4); (Ref.RStr "B", 5)];
               Ref.objects :=
                 [Ref.OList [Ref.RStr "a@x.edu"; Ref.RStr "b@x.edu"];
                  Ref.OList [];
                  Ref.ODict [("waitlist", Ref.RStr "c@x.edu")];
                  Ref.ODict [("participants", Ref.RStr "a@x.edu")];
                  Ref.ODict [("participants", Ref.RRef 0); ("max_participants", Ref.RInt 2)];
                  Ref.ODict [("participants", Ref.RRef 1)]] |} in
  let update := [("$push", Ref.RRef 2); ("$pull", Ref.RRef 3)] in
  exists data_store,
    Ref.snapshot_store 3 st = Some data_store
    /\ snd (Ref.update_one 8 st [("_id", Ref.RStr "A")] update)
       = Ref.Done {| modified_count := 1 |}
    /\ snd (update_one data_store [("_id", VStr "A")]
                       [("$push", VDict [("waitlist", VStr "c@x.edu")]);
                        ("$pull", VDict [("participants", VStr "a@x.edu")])])
       = Ok {| modified_count := 1 |}
    /\ Ref.snapshot_store 3 (fst (Ref.update_one 8 st [("_id", Ref.RStr "A")] update))
       = Some (fst (update_one data_store [("_id", VStr "A")]
                               [("$push", VDict [("waitlist", VStr "c@x.edu")]);
                                ("$pull", VDict [("participants", VStr "a@x.edu")])])).
Proof.
  eexists. split; [reflexivity |]. split; [reflexivity |]. split; reflexivity.
Qed.






